(** * Key stack and session-manager logging settings

    A shallow embedding of [lib/stacks/key-stack.ts]: the [KeyStack]
    constructor and the [SsmSessionManagerSettings] constructor, over a small
    model of the construct tree they declare into.

    Both constructors are imperative: every [new X(scope, id, ...)] declares a
    construct in a tree, [addToResourcePolicy] and [addDependency] mutate a
    construct that has been declared, and a [throw] leaves the tree as it was
    mutated so far.  The tree is a store (a list indexed by location), the
    constructors run in a state-and-exception monad over it.

    The classes the file instantiates come from the CDK library.  They are
    data here: a principal, a statement or a construct is the record of the
    arguments it was built from, and an attribute that is resolved at
    deployment is a token naming the construct and the attribute.  What the
    library adds on its own (the default statement of a key's policy, the
    children of a role) is left out: the policy of a key lists the statements
    the file adds to it.  Three calls into the library refuse their arguments
    when the constructor runs, and they do so here: a composite principal of
    no principal, a log group whose retention is not positive, a suppression
    whose path matches no construct.  [Logger.debug] has no effect on the
    tree and is left out. *)

From stdpp Require Import base strings list option.
From stdpp Require pretty.

#[local] Set Warnings "-register-all".

(** ** IAM data *)

Module Iam.

Inductive Effect := ALLOW | DENY.

Inductive Principal :=
| AccountPrincipal (accountId : string)
| AccountRootPrincipal
| ServicePrincipal (service : string)
| OrganizationPrincipal (organizationId : string)
| CompositePrincipal (principals : list Principal).

(** The value of one condition key: the source writes both a single string
    and an array of strings. *)
Inductive ConditionValue :=
| CondString (s : string)
| CondList (l : list string).

(** [conditions: { <operator>: { <key>: <value> } }] *)
Definition Conditions := list (string * list (string * ConditionValue)).

Record PolicyStatement := mkStatement {
  sid : option string;
  effect : Effect;
  principals : list Principal;
  actions : list string;
  resources : list string;
  conditions : Conditions;
}.

(** A [PolicyDocument] is the list of its statements, in the order in which
    they were added. *)
Definition PolicyDocument := list PolicyStatement.

Definition addStatements (doc : PolicyDocument) (sts : list PolicyStatement) : PolicyDocument :=
  doc ++ sts.

Definition isServicePrincipal (p : Principal) : bool :=
  match p with ServicePrincipal _ => true | _ => false end.

Definition isAccountPrincipal (p : Principal) : bool :=
  match p with AccountPrincipal _ => true | _ => false end.

Definition isOrganizationPrincipal (p : Principal) : bool :=
  match p with OrganizationPrincipal _ => true | _ => false end.

End Iam.

Import Iam.

(** ** The construct tree *)

(** A construct is named by the ids from the stack down to it; the stack
    itself is [[]]. *)
Abbreviation Path := (list string) (only parsing).

(** A location of the store. *)
Abbreviation Loc := nat (only parsing).

Inductive RemovalPolicy := RETAIN | DESTROY.

Record KeyProps := mkKeyProps {
  alias : string;
  description : string;
  enableKeyRotation : bool;
  removalPolicy : option RemovalPolicy;
}.

Record LogGroupProps := mkLogGroupProps {
  logGroupName : string;
  retention : Z;
  encryptionKey : Loc;
  lgRemovalPolicy : option RemovalPolicy;
}.

Record RoleProps := mkRoleProps {
  roleName : string;
  assumedBy : Principal;
  roleDescription : option string;
  managedPolicies : list Loc;
  inlinePolicies : list (string * PolicyDocument);
}.

(** A plain JSON policy statement, as [CustomResourceProvider] takes them. *)
Record JsonStatement := mkJsonStatement {
  jsEffect : string;
  jsAction : list string;
  jsResource : string;
}.

Inductive Runtime := NODEJS_14_X.

Record ProviderProps := mkProviderProps {
  codeDirectory : string;
  runtime : Runtime;
  policyStatements : list JsonStatement;
}.

(** A property value handed to the custom resource: a property whose source
    expression is [undefined] is [JsUndefined]. *)
Inductive JsValue :=
| JsUndefined
| JsString (s : string)
| JsBool (b : bool).

Record CustomResourceProps := mkCustomResourceProps {
  resourceType : string;
  serviceToken : option string;
  properties : list (string * JsValue);
}.

(** A key carries the statements that [addToResourcePolicy] has added to its
    resource policy, in the order of the calls: they come after whatever the
    library puts into the policy of a key on its own, which is not listed. *)
Inductive Construct :=
| CConstruct
| COrganization
| CKey (props : KeyProps) (added : list PolicyStatement)
| CStringParameter (parameterName stringValue : string)
| CRole (props : RoleProps)
| CLogGroup (props : LogGroupProps)
| CManagedPolicy (document : PolicyDocument) (managedPolicyName : string)
| CCfnInstanceProfile (roles : list string) (instanceProfileName : string)
| CCustomResourceProvider (props : ProviderProps)
| CCfnResource (type : string)
| CCustomResource (props : CustomResourceProps) (dependencies : list Loc).

(** Which declarations are cloud resources: everything but the bare grouping
    node that [super(scope, id)] registers for the construct itself. *)
Definition isResource (c : Construct) : bool :=
  match c with CConstruct => false | _ => true end.

Definition isKey (c : Construct) : bool :=
  match c with CKey _ _ => true | _ => false end.

Definition isRole (c : Construct) : bool :=
  match c with CRole _ => true | _ => false end.

Definition isLogGroup (c : Construct) : bool :=
  match c with CLogGroup _ => true | _ => false end.

Record NagPackSuppression := mkSuppression {
  suppressionId : string;
  reason : string;
}.

(** The state the constructors act on: the declarations of one stack in the
    order they were made, and the suppressions registered by path. *)
Record Stack := mkStack {
  constructs : list (Path * Construct);
  nagSuppressions : list (string * list NagPackSuppression);
}.

(** An object reference: where the construct sits in the store and its path. *)
Record Ref := mkRef {
  loc : Loc;
  path : Path;
}.

(** [cdk.Stack.of(this)]: the values the stack resolves for its environment.
    [nodePath] is [node.path] of the stack, the ids from the app down to it;
    [stackName] is the name the stack is deployed under. *)
Record StackEnv := mkStackEnv {
  region : string;
  partition : string;
  account : string;
  stackName : string;
  nodePath : string;
  dirname : string;
}.

(** [node.path] of a construct of the stack: the ids from the app down to the
    construct, joined by ["/"]. *)
Definition nodePathOf (env : StackEnv) (p : Path) : string :=
  String.concat "/" (nodePath env :: p).

(** An attribute known only at deployment ([key.keyArn], [resource.ref], ...)
    is a token: a string that names the construct and the attribute. *)
Definition token (p : Path) (attr : string) : string :=
  "${Token[" +:+ String.concat "/" p +:+ "." +:+ attr +:+ "]}".

(** [key.keyArn] *)
Definition keyArn (key : Path) : string := token key "Arn".

(** ** The monad of a constructor body *)

Record Error := mkError { message : string }.

Inductive Outcome (A : Type) :=
| Return (a : A)
| Throw (e : Error).

Arguments Return {A} a.
Arguments Throw {A} e.

Definition returns {A} (o : Outcome A) : bool :=
  match o with Return _ => true | Throw _ => false end.

Definition M (A : Type) : Type := Stack -> Stack * Outcome A.

Definition ret {A} (a : A) : M A := fun s => (s, Return a).

Definition bind {A B} (c : M A) (k : A -> M B) : M B :=
  fun s =>
    match c s with
    | (s', Return a) => k a s'
    | (s', Throw e) => (s', Throw e)
    end.

Definition throw {A} (e : Error) : M A := fun s => (s, Throw e).

Notation "'let*' x ':=' c 'in' k" := (bind c (fun x => k))
  (at level 10, x pattern, c at level 100, k at level 200).
Notation "c ';;;' k" := (bind c (fun _ => k))
  (at level 100, k at level 200, right associativity).

(** [arr.forEach(f)] for an effectful [f]. *)
Fixpoint forEach {A} (f : A -> M unit) (l : list A) : M unit :=
  match l with
  | [] => ret tt
  | x :: r => f x ;;; forEach f r
  end.

(** [new X(scope, id, ...)]: the construct is declared under [scope], its
    location is the next free one.  The library refuses an id that is taken
    in the scope.  That the id is free is the contract of whoever calls the
    constructor, and [new] does not check it: a statement that depends on it
    takes it as a hypothesis. *)
Definition new (scope : Path) (id : string) (c : Construct) : M Ref :=
  fun s =>
    (mkStack (constructs s ++ [(scope ++ [id], c)]) (nagSuppressions s),
     Return (mkRef (length (constructs s)) (scope ++ [id]))).

(** In-place mutation of a declared construct. *)
Definition mutate (r : Ref) (f : Construct -> Construct) : M unit :=
  fun s =>
    (mkStack (alter (fun e => (e.1, f e.2)) (loc r) (constructs s)) (nagSuppressions s),
     Return tt).

Definition hasPath (p : Path) (e : Path * Construct) : Prop := e.1 = p.

#[global] Instance hasPath_dec p e : Decision (hasPath p e) := decide (e.1 = p).

(** [scope.node.tryFindChild(id)]: the child declared under that id, if any. *)
Definition findIn (cs : list (Path * Construct)) (scope : Path) (id : string) : option Ref :=
  match list_find (hasPath (scope ++ [id])) cs with
  | Some (i, e) => Some (mkRef i e.1)
  | None => None
  end.

Definition tryFindChild (scope : Path) (id : string) : M (option Ref) :=
  fun s => (s, Return (findIn (constructs s) scope id)).

(** [scope.node.findChild(id)] throws when there is no such child. *)
Definition findChild (scope : Path) (id : string) : M Ref :=
  let* o := tryFindChild scope id in
  match o with
  | Some r => ret r
  | None => throw (mkError ("No child with id: '" +:+ id +:+ "'"))
  end.

Definition addToResourcePolicy (key : Ref) (st : PolicyStatement) : M unit :=
  mutate key (fun c =>
    match c with
    | CKey props pol => CKey props (pol ++ [st])
    | other => other
    end).

Definition addDependency (r : Ref) (dep : Ref) : M unit :=
  mutate r (fun c =>
    match c with
    | CCustomResource props deps => CCustomResource props (deps ++ [loc dep])
    | other => other
    end).

(** *** Calls that the library refuses *)

Definition quote : string := String (Ascii.ascii_of_nat 34) EmptyString.

Definition emptyCompositeError : Error :=
  mkError "CompositePrincipals must be constructed with at least one principal but none were passed.".

Definition retentionError (retentionInDays : Z) : Error :=
  mkError ("retentionInDays must be positive, got " +:+ pretty.pretty retentionInDays).

Definition unmatchedPathError (p : string) : Error :=
  mkError ("Suppression path " +:+ quote +:+ p +:+ quote
             +:+ " did not match any resource. This can occur when a resource does not exist or if a suppression is applied before a resource is created.").

(** [new cdk.aws_iam.CompositePrincipal(...principals)] *)
Definition newCompositePrincipal (principals : list Principal) : M Principal :=
  match principals with
  | [] => throw emptyCompositeError
  | _ :: _ => ret (CompositePrincipal principals)
  end.

(** [new cdk.aws_logs.LogGroup(scope, id, props)]: the construct registers
    itself in the scope first; a retention that is not positive is refused
    then, before the log group resource is created under it. *)
Definition newLogGroup (scope : Path) (id : string) (props : LogGroupProps) : M Ref :=
  if (retention props <=? 0)%Z
  then new scope id CConstruct ;;; throw (retentionError (retention props))
  else new scope id (CLogGroup props).

(** The path handed to cdk-nag, without a leading ["/"]. *)
Definition stripLeadingSlash (p : string) : string :=
  if String.prefix "/" p then String.substring 1 (String.length p - 1) p else p.

(** The suppression applies to every construct of the stack, the stack
    included, whose path, or whose path followed by ["/Resource"], is the
    path given. *)
Definition suppressionPathMatches (env : StackEnv) (cs : list (Path * Construct))
    (p : string) : bool :=
  let fixedPath := stripLeadingSlash p in
  existsb (fun q => bool_decide (nodePathOf env q = fixedPath)
                    || bool_decide (nodePathOf env q +:+ "/Resource" = fixedPath))
          ([] :: cs.*1).

(** [NagSuppressions.addResourceSuppressionsByPath(stack, p, l)]: a path that
    matches no construct is refused. *)
Definition addResourceSuppressionsByPath (env : StackEnv) (p : string)
    (l : list NagPackSuppression) : M unit :=
  fun s =>
    if suppressionPathMatches env (constructs s) p
    then (mkStack (constructs s) (nagSuppressions s ++ [(p, l)]), Return tt)
    else (s, Throw (unmatchedPathError p)).

(** ** [KeyStack] *)

Module KeyStack.

Definition CROSS_ACCOUNT_ACCESS_ROLE_NAME : string := "AWSAccelerator-CrossAccount-SsmParameter-Role".
Definition ACCELERATOR_KEY_ARN_PARAMETER_NAME : string := "/accelerator/kms/key-arn".

(** The configuration types are declared in [accelerator-stack.ts] and the
    configuration package; these records hold the fields the constructor
    reads.  An optional field that may be [undefined] is an [option]. *)
Record AccountIdConfig := mkAccountIdConfig {
  email : string;
  accountId : string;
}.

Record AccountsConfig := mkAccountsConfig {
  accountIds : option (list AccountIdConfig);
}.

Record AcceleratorStackProps := mkProps {
  organizationConfig_enable : bool;
  accountsConfig : option AccountsConfig;
  macie_enable : bool;
  guardduty_enable : bool;
  globalConfig_homeRegion : string;
  props_partition : string;
}.

(** [props?.accountsConfig?.accountIds] *)
Definition accountIdsOf (props : AcceleratorStackProps) : option (list AccountIdConfig) :=
  match accountsConfig props with
  | Some c => accountIds c
  | None => None
  end.

Record ServiceItem := mkItem {
  name : string;
  principal : string;
}.

Definition allowedServicePrincipals (props : AcceleratorStackProps) : list ServiceItem :=
  let l0 := [ mkItem "Sns" "sns.amazonaws.com";
              mkItem "Lambda" "lambda.amazonaws.com";
              mkItem "Cloudwatch" "cloudwatch.amazonaws.com" ] in
  let l1 := if macie_enable props
            then l0 ++ [mkItem "Macie" "macie.amazonaws.com"] else l0 in
  if guardduty_enable props
  then l1 ++ [mkItem "Guardduty" "guardduty.amazonaws.com"] else l1.

Definition keyUseActions : list string :=
  ["kms:Encrypt"; "kms:Decrypt"; "kms:ReEncrypt*"; "kms:GenerateDataKey*"; "kms:DescribeKey"].

Definition acceleratorRoleArnLike (env : StackEnv) : Conditions :=
  [("ArnLike",
    [("aws:PrincipalARN",
      CondList ["arn:" +:+ partition env +:+ ":iam::*:role/AWSAccelerator-*"])])].

(** [principals] is [accountIds?.map(...)]: no principal at all when the
    account list is [undefined]. *)
Definition acceleratorRoleStatement (env : StackEnv) (props : AcceleratorStackProps) : PolicyStatement :=
  {| sid := Some "Allow Accelerator Role to use the encryption key";
     effect := ALLOW;
     principals :=
       match accountIdsOf props with
       | Some l => map (fun item => AccountPrincipal (accountId item)) l
       | None => []
       end;
     actions := keyUseActions;
     resources := ["*"];
     conditions := acceleratorRoleArnLike env |}.

Definition cloudwatchLogsStatement : PolicyStatement :=
  {| sid := Some "Allow Cloudwatch logs to use the encryption key";
     effect := ALLOW;
     principals := [ServicePrincipal "logs.amazonaws.com.cn"];
     actions := ["kms:Encrypt*"; "kms:Decrypt*"; "kms:ReEncrypt*"; "kms:GenerateDataKey*"; "kms:Describe*"];
     resources := ["*"];
     conditions := [] |}.

Definition serviceStatement (item : ServiceItem) : PolicyStatement :=
  {| sid := Some ("Allow " +:+ name item +:+ " service to use the encryption key");
     effect := ALLOW;
     principals := [ServicePrincipal (principal item)];
     actions := keyUseActions;
     resources := ["*"];
     conditions := [] |}.

Definition crossAccountInlinePolicy (env : StackEnv) : PolicyDocument :=
  [ {| sid := None;
       effect := ALLOW;
       principals := [];
       actions := ["ssm:GetParameters"; "ssm:GetParameter"];
       resources := ["arn:" +:+ partition env +:+ ":ssm:*:" +:+ account env
                       +:+ ":parameter/accelerator/kms/key-arn"];
       conditions := acceleratorRoleArnLike env |};
    {| sid := None;
       effect := ALLOW;
       principals := [];
       actions := ["ssm:DescribeParameters"];
       resources := ["*"];
       conditions := acceleratorRoleArnLike env |} ].

Definition acceleratorKeyProps : KeyProps :=
  {| alias := "alias/accelerator/kms/key";
     description := "AWS Accelerator Kms Key";
     enableKeyRotation := true;
     removalPolicy := Some RETAIN |}.

Definition ssmParameterSuppression : NagPackSuppression :=
  {| suppressionId := "AwsSolutions-IAM5";
     reason := "This policy is required to give access to ssm parameters in every region where accelerator deployed. Various accelerator roles need permission to describe SSM parameters." |}.

(** The principal the cross-account role is assumed by: the composite of the
    account principals, which the library builds only of a list that is not
    empty, or the organization principal. *)
Definition crossAccountAssumedBy (props : AcceleratorStackProps)
    (accountPrincipals : list Principal) (organizationId : string) : M Principal :=
  if bool_decide (props_partition props = "aws-cn") && bool_decide (accountIdsOf props <> None)
  then newCompositePrincipal accountPrincipals
  else ret (OrganizationPrincipal organizationId).

(** What the constructor binds, for the statements below to name. *)
Record Locals := mkLocals {
  organizationId : string;
  key : Ref;
  crossAccountRole : option Ref;
}.

(** The constructor body, after [super(scope, id, props)]. *)
Definition constructor (env : StackEnv) (props : AcceleratorStackProps) : M Locals :=
  let* organizationId :=
    (if organizationConfig_enable props
     then let* o := new [] "Organization" COrganization in ret (token (path o) "id")
     else ret "") in
  let* key := new [] "AcceleratorKey" (CKey acceleratorKeyProps []) in
  (if organizationConfig_enable props
   then addToResourcePolicy key (acceleratorRoleStatement env props)
   else ret tt) ;;;
  addToResourcePolicy key cloudwatchLogsStatement ;;;
  forEach (fun item => addToResourcePolicy key (serviceStatement item))
          (allowedServicePrincipals props) ;;;
  new [] "AcceleratorKmsArnParameter"
    (CStringParameter "/accelerator/kms/key-arn" (keyArn (path key))) ;;;
  let accountPrincipals :=
    map (fun assumedByItem => AccountPrincipal (accountId assumedByItem))
        (default [] (accountIdsOf props)) in
  if bool_decide (region env = globalConfig_homeRegion props) && organizationConfig_enable props
  then
    let* trust := crossAccountAssumedBy props accountPrincipals organizationId in
    let* role := new [] "CrossAccountAcceleratorSsmParamAccessRole"
      (CRole {| roleName := CROSS_ACCOUNT_ACCESS_ROLE_NAME;
                assumedBy := trust;
                roleDescription := None;
                managedPolicies := [];
                inlinePolicies := [("default", crossAccountInlinePolicy env)] |}) in
    addResourceSuppressionsByPath env
      (stackName env +:+ "/CrossAccountAcceleratorSsmParamAccessRole/Resource")
      [ssmParameterSuppression] ;;;
    ret (mkLocals organizationId key (Some role))
  else ret (mkLocals organizationId key None).

(** *** What the statements about the key stack speak of *)

(** A resource policy lets a service use the key: some statement allows the
    service principal, and no one else, both to encrypt and to decrypt, on
    every resource and under no condition. *)
Definition grantsKeyUse (pol : list PolicyStatement) (service : string) : Prop :=
  exists st,
    st ∈ pol /\ effect st = ALLOW /\ principals st = [ServicePrincipal service]
    /\ "kms:Encrypt" ∈ actions st /\ "kms:Decrypt" ∈ actions st
    /\ resources st = ["*"] /\ conditions st = [].

(** Some statement of the policy names the principal. *)
Definition namesPrincipal (pol : list PolicyStatement) (p : Principal) : Prop :=
  exists st, st ∈ pol /\ p ∈ principals st.

(** The principals configured for the accounts. *)
Definition configuredAccountPrincipals (props : AcceleratorStackProps) : list Principal :=
  map (fun item => AccountPrincipal (accountId item)) (default [] (accountIdsOf props)).

(** The composite is asked for, of an account list that is empty. *)
Definition emptyCompositeRequested (props : AcceleratorStackProps) : bool :=
  bool_decide (props_partition props = "aws-cn")
  && match accountIdsOf props with Some [] => true | _ => false end.

(** The role is asked for: the home region of an organization. *)
Definition roleRequested (env : StackEnv) (props : AcceleratorStackProps) : bool :=
  bool_decide (region env = globalConfig_homeRegion props) && organizationConfig_enable props.

Definition crossAccountRolePath : Path := ["CrossAccountAcceleratorSsmParamAccessRole"].

Definition suppressionPath (env : StackEnv) : string :=
  stackName env +:+ "/CrossAccountAcceleratorSsmParamAccessRole/Resource".

(** Where the run declares the key: after the organization construct, when
    there is one. *)
Definition keyLoc (props : AcceleratorStackProps) (s : Stack) : Loc :=
  length (constructs s) + (if organizationConfig_enable props then 1 else 0).

(** *** The run in closed form *)

(** The statements the constructor adds to the policy of the key, in order. *)
Definition addedStatements (env : StackEnv) (props : AcceleratorStackProps)
    : list PolicyStatement :=
  (if organizationConfig_enable props then [acceleratorRoleStatement env props] else [])
  ++ cloudwatchLogsStatement :: map serviceStatement (allowedServicePrincipals props).

Definition organizationIdOf (props : AcceleratorStackProps) : string :=
  if organizationConfig_enable props then token ["Organization"] "id" else "".

(** What every run declares, before it gets to the role. *)
Definition baseDeclarations (env : StackEnv) (props : AcceleratorStackProps)
    : list (Path * Construct) :=
  (if organizationConfig_enable props then [(["Organization"], COrganization)] else [])
  ++ [(["AcceleratorKey"], CKey acceleratorKeyProps (addedStatements env props));
      (["AcceleratorKmsArnParameter"],
       CStringParameter "/accelerator/kms/key-arn" (keyArn ["AcceleratorKey"]))].

(** The trust principal, where the library builds it. *)
Definition trustPrincipal (props : AcceleratorStackProps) : Principal :=
  if bool_decide (props_partition props = "aws-cn") && bool_decide (accountIdsOf props <> None)
  then CompositePrincipal (configuredAccountPrincipals props)
  else OrganizationPrincipal (organizationIdOf props).

Definition roleDeclaration (env : StackEnv) (props : AcceleratorStackProps)
    : Path * Construct :=
  (crossAccountRolePath,
   CRole {| roleName := CROSS_ACCOUNT_ACCESS_ROLE_NAME;
            assumedBy := trustPrincipal props;
            roleDescription := None;
            managedPolicies := [];
            inlinePolicies := [("default", crossAccountInlinePolicy env)] |}).

Definition closedForm (env : StackEnv) (props : AcceleratorStackProps) (s : Stack)
    : Stack * Outcome Locals :=
  let key := mkRef (keyLoc props s) ["AcceleratorKey"] in
  let base := constructs s ++ baseDeclarations env props in
  let withRole := constructs s ++ baseDeclarations env props ++ [roleDeclaration env props] in
  if roleRequested env props
  then
    if emptyCompositeRequested props
    then (mkStack base (nagSuppressions s), Throw emptyCompositeError)
    else
      if suppressionPathMatches env withRole (suppressionPath env)
      then (mkStack withRole
              (nagSuppressions s ++ [(suppressionPath env, [ssmParameterSuppression])]),
            Return (mkLocals (organizationIdOf props) key
                      (Some (mkRef (keyLoc props s + 2) crossAccountRolePath))))
      else (mkStack withRole (nagSuppressions s),
            Throw (unmatchedPathError (suppressionPath env)))
  else (mkStack base (nagSuppressions s),
        Return (mkLocals (organizationIdOf props) key None)).

End KeyStack.

(** ** [CustomResourceProvider], as far as the settings construct uses it *)

Module CustomResourceProvider.

(** [new CustomResourceProvider(stack, id, props)] declares the provider and,
    under it, the staged code, the execution role and the handler function.
    The code directory is taken to be in place: the file system is not part
    of the model. *)
Definition constructor (id : string) (props : ProviderProps) : M Ref :=
  let* provider := new [] id (CCustomResourceProvider props) in
  new (path provider) "Staging" CConstruct ;;;
  new (path provider) "Role" (CCfnResource "AWS::IAM::Role") ;;;
  new (path provider) "Handler" (CCfnResource "AWS::Lambda::Function") ;;;
  ret provider.

(** [CustomResourceProvider.getOrCreateProvider(scope, uniqueid, props)]: the
    provider is a singleton of the stack, looked up under
    [uniqueid + 'CustomResourceProvider'] before it is created. *)
Definition getOrCreateProvider (uniqueid : string) (props : ProviderProps) : M Ref :=
  let id := uniqueid +:+ "CustomResourceProvider" in
  let* found := tryFindChild [] id in
  match found with
  | Some provider => ret provider
  | None => constructor id props
  end.

(** [provider.serviceToken]: the handler's ARN; [undefined] on an object that
    is not a provider. *)
Definition serviceTokenOf (provider : Ref) : M (option string) :=
  fun s =>
    (s, Return
          match constructs s !! loc provider with
          | Some (_, CCustomResourceProvider _) =>
              Some (token (path provider ++ ["Handler"]) "Arn")
          | _ => None
          end).

End CustomResourceProvider.

(** ** [SsmSessionManagerSettings] *)

Module SsmSessionManagerSettings.

Record SsmSessionManagerSettingsProps := mkProps {
  s3BucketName : option string;
  s3KeyPrefix : option string;
  s3BucketKeyArn : option string;
  sendToS3 : bool;
  sendToCloudWatchLogs : bool;
  cloudWatchEncryptionEnabled : bool;
  kmsKey : Ref;
  logRetentionInDays : Z;
}.

(** Truthiness of an optional string: [undefined] and [''] are falsy. *)
Definition truthy (o : option string) : bool :=
  match o with
  | Some s => negb (bool_decide (s = ""))
  | None => false
  end.

(** The string of a property that has been checked to be truthy. *)
Definition str (o : option string) : string := default "" o.

Definition jsOpt (o : option string) : JsValue :=
  match o with
  | Some s => JsString s
  | None => JsUndefined
  end.

(** [node.id]: the last id of the path. *)
Definition nodeId (r : Ref) : string := List.last (path r) "".

Definition TEN_YEARS : Z := 3653.

Definition baseStatement : PolicyStatement :=
  {| sid := None;
     effect := ALLOW;
     principals := [];
     actions := ["ssmmessages:CreateControlChannel";
                 "ssmmessages:CreateDataChannel";
                 "ssmmessages:OpenControlChannel";
                 "ssmmessages:OpenDataChannel";
                 "ssm:UpdateInstanceInformation"];
     resources := ["*"];
     conditions := [] |}.

Definition rootStatement : PolicyStatement :=
  {| sid := Some "Enable IAM User Permissions";
     effect := ALLOW;
     principals := [AccountRootPrincipal];
     actions := ["kms:*"];
     resources := ["*"];
     conditions := [] |}.

Definition logsAccessStatement (env : StackEnv) : PolicyStatement :=
  {| sid := Some "Allow Cloud Watch Logs access";
     effect := ALLOW;
     principals := [ServicePrincipal ("logs." +:+ region env +:+ ".amazonaws.com.cn")];
     actions := ["kms:Encrypt*"; "kms:Decrypt*"; "kms:ReEncrypt*"; "kms:GenerateDataKey*"; "kms:Describe*"];
     resources := ["*"];
     conditions :=
       [("ArnLike",
         [("kms:EncryptionContext:aws:logs:arn",
           CondString ("arn:" +:+ partition env +:+ ":logs:" +:+ region env +:+ ":"
                         +:+ account env +:+ ":*"))])] |}.

Definition describeLogGroupsStatement (env : StackEnv) : PolicyStatement :=
  {| sid := None;
     effect := ALLOW;
     principals := [];
     actions := ["logs:DescribeLogGroups"];
     resources := ["arn:" +:+ partition env +:+ ":logs:" +:+ region env +:+ ":"
                     +:+ account env +:+ ":log-group:*"];
     conditions := [] |}.

Definition logStreamStatement (env : StackEnv) (logGroupName : string) : PolicyStatement :=
  {| sid := None;
     effect := ALLOW;
     principals := [];
     actions := ["logs:CreateLogStream"; "logs:PutLogEvents"; "logs:DescribeLogStreams"];
     resources := ["arn:" +:+ partition env +:+ ":logs:" +:+ region env +:+ ":"
                     +:+ account env +:+ ":log-group:" +:+ logGroupName +:+ ":*"];
     conditions := [] |}.

Definition putObjectStatement (env : StackEnv) (props : SsmSessionManagerSettingsProps) : PolicyStatement :=
  {| sid := None;
     effect := ALLOW;
     principals := [];
     actions := ["s3:PutObject"; "s3:PutObjectAcl"];
     resources := ["arn:" +:+ partition env +:+ ":s3:::" +:+ str (s3BucketName props) +:+ "/"
                     +:+ (if truthy (s3KeyPrefix props)
                          then str (s3KeyPrefix props) +:+ "/*"
                          else "*")];
     conditions := [] |}.

Definition encryptionConfigurationStatement (env : StackEnv) (props : SsmSessionManagerSettingsProps) : PolicyStatement :=
  {| sid := None;
     effect := ALLOW;
     principals := [];
     actions := ["s3:GetEncryptionConfiguration"];
     resources := ["arn:" +:+ partition env +:+ ":s3:::" +:+ str (s3BucketName props)];
     conditions := [] |}.

Definition bucketKeyStatement (props : SsmSessionManagerSettingsProps) : PolicyStatement :=
  {| sid := None;
     effect := ALLOW;
     principals := [];
     actions := ["kms:Decrypt"; "kms:GenerateDataKey"];
     resources := [str (s3BucketKeyArn props)];
     conditions := [] |}.

Definition sessionKeyStatement (sessionCmkArn : string) : PolicyStatement :=
  {| sid := None;
     effect := ALLOW;
     principals := [];
     actions := ["kms:Decrypt"];
     resources := [sessionCmkArn];
     conditions := [] |}.

Definition userKeyStatement (sessionCmkArn : string) : PolicyStatement :=
  {| sid := None;
     effect := ALLOW;
     principals := [];
     actions := ["kms:Decrypt"; "kms:GenerateDataKey"];
     resources := [sessionCmkArn];
     conditions := [] |}.

Definition cloudWatchStatements (env : StackEnv) (logGroupName : string) : list PolicyStatement :=
  [describeLogGroupsStatement env; logStreamStatement env logGroupName].

Definition s3Statements (env : StackEnv) (props : SsmSessionManagerSettingsProps) : list PolicyStatement :=
  [putObjectStatement env props;
   encryptionConfigurationStatement env props;
   bucketKeyStatement props].

Definition logsCmkProps : KeyProps :=
  {| alias := "accelerator/session-manager-logging/cloud-watch-logs";
     description := "AWS Accelerator Cloud Watch Logs CMK for Session Manager Logs";
     enableKeyRotation := true;
     removalPolicy := None |}.

Definition sessionCmkProps : KeyProps :=
  {| alias := "accelerator/session-manager-logging/session";
     description := "AWS Accelerator Cloud Watch Logs CMK for Session Manager Logs";
     enableKeyRotation := true;
     removalPolicy := None |}.

Definition providerProps (env : StackEnv) : ProviderProps :=
  {| codeDirectory := dirname env +:+ "/session-manager-settings/dist";
     runtime := NODEJS_14_X;
     policyStatements :=
       [ {| jsEffect := "Allow";
            jsAction := ["ssm:DescribeDocument"; "ssm:CreateDocument"; "ssm:UpdateDocument"];
            jsResource := "*" |} ] |}.

(** What the constructor binds, for the statements below to name. *)
Record Locals := mkLocals {
  this : Ref;
  sessionManagerEC2PolicyDocument : PolicyDocument;
  sessionManagerLogGroupName : string;
  sessionManagerSessionCmk : Ref;
  sessionManagerEC2Policy : Ref;
  sessionManagerEC2Role : Ref;
  provider : Ref;
  resource : Ref;
  logGroup : Ref;
  id : string;
}.

Definition constructor (env : StackEnv) (scope : Path) (id : string)
    (props : SsmSessionManagerSettingsProps) : M Locals :=
  let* this := new scope id CConstruct in
  let doc0 : PolicyDocument := [baseStatement] in
  let* (sessionManagerLogGroupName, doc1) :=
    (if sendToCloudWatchLogs props
     then
       let* sessionManagerLogsCmk :=
         new (path this) "SessionManagerLogsCmk" (CKey logsCmkProps []) in
       addToResourcePolicy sessionManagerLogsCmk rootStatement ;;;
       addToResourcePolicy sessionManagerLogsCmk (logsAccessStatement env) ;;;
       let logGroupName := "aws-accelerator-session-manager-logs" in
       let* sessionManagerLogGroup := newLogGroup (path this) "sessionManagerLogGroup"
         {| logGroupName := logGroupName;
            retention := TEN_YEARS;
            encryptionKey := loc sessionManagerLogsCmk;
            lgRemovalPolicy := None |} in
       ret (token (path sessionManagerLogGroup) "logGroupName",
            addStatements doc0 (cloudWatchStatements env logGroupName))
     else ret ("", doc0)) in
  let* doc2 :=
    (if sendToS3 props
     then
       if negb (truthy (s3BucketKeyArn props)) || negb (truthy (s3BucketName props))
       then throw (mkError "Bucket Key Arn and Bucket Name must be provided")
       else ret (addStatements doc1 (s3Statements env props))
     else ret doc1) in
  let* sessionManagerSessionCmk :=
    new (path this) "SessionManagerSessionCmk" (CKey sessionCmkProps []) in
  addToResourcePolicy sessionManagerSessionCmk rootStatement ;;;
  addToResourcePolicy sessionManagerSessionCmk (logsAccessStatement env) ;;;
  let doc3 :=
    addStatements doc2 [sessionKeyStatement (keyArn (path sessionManagerSessionCmk))] in
  let* sessionManagerEC2Policy := new (path this) "SessionManagerEC2Policy"
    (CManagedPolicy doc3 ("SessionManagerLogging-" +:+ region env)) in
  let* sessionManagerEC2Role := new (path this) "SessionManagerEC2Role"
    (CRole {| roleName := "SessionManagerEC2Role-" +:+ region env;
              assumedBy := ServicePrincipal "ec2.amazonaws.com.cn";
              roleDescription := Some "IAM Role for an EC2 configured for Session Manager Logging";
              managedPolicies := [loc sessionManagerEC2Policy];
              inlinePolicies := [] |}) in
  new (path this) "SessionManagerEC2InstanceProfile"
    (CCfnInstanceProfile [token (path sessionManagerEC2Role) "roleName"]
                         ("SessionManagerEc2Role-" +:+ region env)) ;;;
  new (path this) "SessionManagerUserKMSPolicy"
    (CManagedPolicy [userKeyStatement (keyArn (path sessionManagerSessionCmk))]
                    ("SessionManagerUserKMSPolicy-" +:+ region env)) ;;;
  let* provider :=
    CustomResourceProvider.getOrCreateProvider "Custom::SessionManagerLogging" (providerProps env) in
  let* serviceToken := CustomResourceProvider.serviceTokenOf provider in
  let* resource := new (path this) "Resource"
    (CCustomResource
       {| resourceType := "Custom::SsmSessionManagerSettings";
          serviceToken := serviceToken;
          properties :=
            [("s3BucketName", jsOpt (s3BucketName props));
             ("s3KeyPrefix", jsOpt (s3KeyPrefix props));
             ("s3EncryptionEnabled", JsBool (sendToS3 props));
             ("cloudWatchLogGroupName", JsString sessionManagerLogGroupName);
             ("cloudWatchEncryptionEnabled", JsBool (cloudWatchEncryptionEnabled props));
             ("kmsKeyId", JsString (token (path sessionManagerSessionCmk) "keyId"))] |}
       []) in
  let* found := tryFindChild [] (nodeId provider +:+ "LogGroup") in
  let* logGroup :=
    match found with
    | Some lg => ret lg
    | None =>
        let* handler := findChild (path provider) "Handler" in
        newLogGroup [] (nodeId provider +:+ "LogGroup")
          {| logGroupName := "/aws/lambda/" +:+ token (path handler) "Ref";
             retention := logRetentionInDays props;
             encryptionKey := loc (kmsKey props);
             lgRemovalPolicy := Some DESTROY |}
    end in
  addDependency resource logGroup ;;;
  ret (mkLocals this doc3 sessionManagerLogGroupName sessionManagerSessionCmk
         sessionManagerEC2Policy sessionManagerEC2Role provider resource logGroup
         (token (path resource) "Ref")).

(** *** What the statements about the settings construct speak of *)

Definition validationError : Error :=
  mkError "Bucket Key Arn and Bucket Name must be provided".

Definition missingHandler : Error := mkError "No child with id: 'Handler'".

(** The ids the provider and its handler's log group get in the stack. *)
Definition providerId : string := "Custom::SessionManagerLoggingCustomResourceProvider".
Definition handlerLogGroupId : string := providerId +:+ "LogGroup".

(** A log group declared under the id of the handler's log group. *)
Definition isHandlerLogGroup (d : Path * Construct) : bool :=
  isLogGroup d.2 && bool_decide (d.1 = [handlerLogGroupId]).

Definition sessionLogGroupName : string := "aws-accelerator-session-manager-logs".



Definition hasAction (a : string) (st : PolicyStatement) : bool :=
  bool_decide (a ∈ actions st).

Definition property (k : string) (ps : list (string * JsValue)) : option JsValue :=
  snd <$> List.find (fun kv => bool_decide (kv.1 = k)) ps.


Definition sessionCmkPath (scope : Path) (id : string) : Path :=
  (scope ++ [id]) ++ ["SessionManagerSessionCmk"].

(** The document the agent policy ends up with: the base statement, one block
    per enabled destination, the session-key statement. *)
Definition agentPolicyDocument (env : StackEnv) (scope : Path) (id : string)
    (props : SsmSessionManagerSettingsProps) : PolicyDocument :=
  [baseStatement]
  ++ (if sendToCloudWatchLogs props then cloudWatchStatements env sessionLogGroupName else [])
  ++ (if sendToS3 props then s3Statements env props else [])
  ++ [sessionKeyStatement (keyArn (sessionCmkPath scope id))].

Definition sessionCmkDeclaration (env : StackEnv) (scope : Path) (id : string) : Path * Construct :=
  (sessionCmkPath scope id, CKey sessionCmkProps [rootStatement; logsAccessStatement env]).

Definition logsCmkDeclaration (env : StackEnv) (scope : Path) (id : string) : Path * Construct :=
  ((scope ++ [id]) ++ ["SessionManagerLogsCmk"],
   CKey logsCmkProps [rootStatement; logsAccessStatement env]).

(** The session-manager log group; [n] is the number of constructs the stack
    held before: the logs key is the second declaration of the run. *)
Definition sessionLogGroupDeclaration (scope : Path) (id : string) (n : nat) : Path * Construct :=
  ((scope ++ [id]) ++ ["sessionManagerLogGroup"],
   CLogGroup {| logGroupName := sessionLogGroupName;
                retention := TEN_YEARS;
                encryptionKey := n + 1;
                lgRemovalPolicy := None |}).

Definition agentPolicyDeclaration (env : StackEnv) (scope : Path) (id : string)
    (props : SsmSessionManagerSettingsProps) : Path * Construct :=
  ((scope ++ [id]) ++ ["SessionManagerEC2Policy"],
   CManagedPolicy (agentPolicyDocument env scope id props)
                  ("SessionManagerLogging-" +:+ region env)).

Definition cloudWatchDeclarations (env : StackEnv) (scope : Path) (id : string)
    (props : SsmSessionManagerSettingsProps) (n : nat) : list (Path * Construct) :=
  if sendToCloudWatchLogs props
  then [logsCmkDeclaration env scope id; sessionLogGroupDeclaration scope id n]
  else [].

Definition customResourceProperties (props : SsmSessionManagerSettingsProps) (l : Locals)
    : list (string * JsValue) :=
  [("s3BucketName", jsOpt (s3BucketName props));
   ("s3KeyPrefix", jsOpt (s3KeyPrefix props));
   ("s3EncryptionEnabled", JsBool (sendToS3 props));
   ("cloudWatchLogGroupName", JsString (sessionManagerLogGroupName l));
   ("cloudWatchEncryptionEnabled", JsBool (cloudWatchEncryptionEnabled props));
   ("kmsKeyId", JsString (token (path (sessionManagerSessionCmk l)) "keyId"))].

(** What holds of the stack once the validation of the S3 settings has been
    passed, however the run ends. *)
Record Assembled (env : StackEnv) (scope : Path) (id : string)
    (props : SsmSessionManagerSettingsProps) (s s' : Stack) : Prop := {
  as_valid :
    sendToS3 props = true ->
    truthy (s3BucketKeyArn props) = true /\ truthy (s3BucketName props) = true;
  as_declared :
    exists ds,
      constructs s' = constructs s ++ ds
      /\ List.filter (fun d => isKey d.2) ds
         = (if sendToCloudWatchLogs props then [logsCmkDeclaration env scope id] else [])
           ++ [sessionCmkDeclaration env scope id]
      /\ In (agentPolicyDeclaration env scope id props) ds
      /\ (sendToCloudWatchLogs props = true ->
          In (sessionLogGroupDeclaration scope id (length (constructs s))) ds);
}.

(** What holds of the stack and of the objects bound by a run that returns. *)
Record Completed (env : StackEnv) (scope : Path) (id : string)
    (props : SsmSessionManagerSettingsProps) (s s' : Stack) (l : Locals) : Prop := {
  done_cmk_path :
    path (sessionManagerSessionCmk l) = sessionCmkPath scope id;
  done_doc :
    sessionManagerEC2PolicyDocument l = agentPolicyDocument env scope id props;
  done_name :
    sessionManagerLogGroupName l
    = if sendToCloudWatchLogs props
      then token ((scope ++ [id]) ++ ["sessionManagerLogGroup"]) "logGroupName"
      else "";
  done_cmk :
    constructs s' !! loc (sessionManagerSessionCmk l) = Some (sessionCmkDeclaration env scope id);
  done_policy :
    constructs s' !! loc (sessionManagerEC2Policy l)
    = Some (agentPolicyDeclaration env scope id props);
  done_resource :
    exists token,
      constructs s' !! loc (resource l)
      = Some ((scope ++ [id]) ++ ["Resource"],
              CCustomResource
                {| resourceType := "Custom::SsmSessionManagerSettings";
                   serviceToken := token;
                   properties := customResourceProperties props l |}
                [loc (logGroup l)]);
  done_logGroup :
    findIn (constructs s') [] handlerLogGroupId = Some (logGroup l);
  done_found :
    forall g, findIn (constructs s) [] handlerLogGroupId = Some g ->
      logGroup l = g
      /\ forall ds, constructs s' = constructs s ++ ds ->
           Forall (fun d => ~ (d.1 = [handlerLogGroupId] /\ isLogGroup d.2 = true)) ds;
}.

(** The handler's log group is there before the run looks it up: the stack
    held a child under its id, or the construct itself is given that id. *)
Definition handlerLogGroupThere (scope : Path) (id : string) (s : Stack) : Prop :=
  findIn (constructs s) [] handlerLogGroupId <> None \/ scope ++ [id] = [handlerLogGroupId].

(** The four ways a run ends.  The handler can only be missing under a
    provider that the run did not create itself; the retention is looked at
    only when the run creates the handler's log group. *)
Definition Ends (env : StackEnv) (scope : Path) (id : string)
    (props : SsmSessionManagerSettingsProps) (s s' : Stack) (o : Outcome Locals) : Prop :=
  match o with
  | Return l =>
      Assembled env scope id props s s' /\ Completed env scope id props s s' l
      /\ (handlerLogGroupThere scope id s \/ (0 < logRetentionInDays props)%Z)
  | Throw e =>
      (e = validationError
       /\ sendToS3 props = true
       /\ (truthy (s3BucketKeyArn props) = false \/ truthy (s3BucketName props) = false))
      \/ (e = missingHandler
          /\ Assembled env scope id props s s'
          /\ (findIn (constructs s) [] providerId <> None \/ scope ++ [id] = [providerId]))
      \/ (e = retentionError (logRetentionInDays props)
          /\ Assembled env scope id props s s'
          /\ (logRetentionInDays props <= 0)%Z
          /\ ~ handlerLogGroupThere scope id s)
  end.

End SsmSessionManagerSettings.

(** ** Concrete stacks and configurations *)

Module Examples.

Definition emptyStack : Stack := mkStack [] [].

Definition env : StackEnv :=
  {| region := "cn-north-1";
     partition := "aws-cn";
     account := "111122223333";
     stackName := "AWSAccelerator-KeyStack";
     nodePath := "AWSAccelerator-KeyStack";
     dirname := "/lib" |}.

Definition accounts (ids : list string) : option KeyStack.AccountsConfig :=
  Some (KeyStack.mkAccountsConfig
          (Some (map (fun a => KeyStack.mkAccountIdConfig "ops@example.com" a) ids))).

(** Organization mode in the home region of the China partition, two accounts. *)
Definition organizationProps : KeyStack.AcceleratorStackProps :=
  {| KeyStack.organizationConfig_enable := true;
     KeyStack.accountsConfig := accounts ["111111111111"; "222222222222"];
     KeyStack.macie_enable := true;
     KeyStack.guardduty_enable := false;
     KeyStack.globalConfig_homeRegion := "cn-north-1";
     KeyStack.props_partition := "aws-cn" |}.

Definition standaloneProps : KeyStack.AcceleratorStackProps :=
  {| KeyStack.organizationConfig_enable := false;
     KeyStack.accountsConfig := accounts ["111111111111"];
     KeyStack.macie_enable := false;
     KeyStack.guardduty_enable := true;
     KeyStack.globalConfig_homeRegion := "cn-north-1";
     KeyStack.props_partition := "aws-cn" |}.

(** A stack that holds the key the handler's log group is encrypted with. *)
Definition stackWithKey : Stack :=
  mkStack [(["AcceleratorKey"], CKey KeyStack.acceleratorKeyProps [])] [].

Definition lambdaKey : Ref := mkRef 0 ["AcceleratorKey"].

Import SsmSessionManagerSettings.

(** Both destinations, the bucket and its key given, a key prefix. *)
Definition bothDestinations : SsmSessionManagerSettingsProps :=
  {| s3BucketName := Some "central-logs";
     s3KeyPrefix := Some "session";
     s3BucketKeyArn := Some "arn:aws-cn:kms:cn-north-1:111122223333:key/1234";
     sendToS3 := true;
     sendToCloudWatchLogs := true;
     cloudWatchEncryptionEnabled := true;
     kmsKey := lambdaKey;
     logRetentionInDays := 365 |}.

Definition noDestination : SsmSessionManagerSettingsProps :=
  {| s3BucketName := None;
     s3KeyPrefix := None;
     s3BucketKeyArn := None;
     sendToS3 := false;
     sendToCloudWatchLogs := false;
     cloudWatchEncryptionEnabled := false;
     kmsKey := lambdaKey;
     logRetentionInDays := 30 |}.

(** The S3 destination requested without a bucket, CloudWatch requested too. *)
Definition bucketMissing : SsmSessionManagerSettingsProps :=
  {| s3BucketName := None;
     s3KeyPrefix := None;
     s3BucketKeyArn := Some "arn:aws-cn:kms:cn-north-1:111122223333:key/1234";
     sendToS3 := true;
     sendToCloudWatchLogs := true;
     cloudWatchEncryptionEnabled := true;
     kmsKey := lambdaKey;
     logRetentionInDays := 365 |}.

Definition firstRun : Stack * Outcome Locals :=
  constructor env [] "SessionManagerSettings" bothDestinations stackWithKey.

Definition secondRun : Stack * Outcome Locals :=
  constructor env [] "SecondSessionManagerSettings" noDestination firstRun.1.

Definition noLocals : Locals :=
  let r := mkRef 0 [] in mkLocals r [] "" r r r r r r "".

Definition returned (r : Stack * Outcome Locals) : Locals :=
  match r.2 with
  | Return l => l
  | Throw _ => noLocals
  end.

End Examples.

(** ** What a run has declared, and how the declarations are wired *)

(** The declarations a run has added to the stack it started from. *)
Definition declaredBy (s s' : Stack) : list (Path * Construct) :=
  drop (length (constructs s)) (constructs s').

Definition isStringParameter (c : Construct) : bool :=
  match c with CStringParameter _ _ => true | _ => false end.

Module Wiring.

Import SsmSessionManagerSettings.

Definition ec2RoleDeclaration (env : StackEnv) (scope : Path) (id : string) (policy : Loc)
    : Path * Construct :=
  ((scope ++ [id]) ++ ["SessionManagerEC2Role"],
   CRole {| roleName := "SessionManagerEC2Role-" +:+ region env;
            assumedBy := ServicePrincipal "ec2.amazonaws.com.cn";
            roleDescription := Some "IAM Role for an EC2 configured for Session Manager Logging";
            managedPolicies := [policy];
            inlinePolicies := [] |}).

Definition instanceProfileDeclaration (env : StackEnv) (scope : Path) (id : string)
    : Path * Construct :=
  ((scope ++ [id]) ++ ["SessionManagerEC2InstanceProfile"],
   CCfnInstanceProfile
     [token ((scope ++ [id]) ++ ["SessionManagerEC2Role"]) "roleName"]
     ("SessionManagerEc2Role-" +:+ region env)).

Definition userPolicyDeclaration (env : StackEnv) (scope : Path) (id : string)
    : Path * Construct :=
  ((scope ++ [id]) ++ ["SessionManagerUserKMSPolicy"],
   CManagedPolicy [userKeyStatement (keyArn (sessionCmkPath scope id))]
                  ("SessionManagerUserKMSPolicy-" +:+ region env)).

(** The handler's log group as a run declares it when the stack has none. *)
Definition handlerLogGroupDeclaration (props : SsmSessionManagerSettingsProps)
    : Path * Construct :=
  ([handlerLogGroupId],
   CLogGroup {| logGroupName := "/aws/lambda/" +:+ token [providerId; "Handler"] "Ref";
                retention := logRetentionInDays props;
                encryptionKey := loc (kmsKey props);
                lgRemovalPolicy := Some DESTROY |}).

(** How the objects of a run that returns refer to one another. *)
Record Wired (env : StackEnv) (scope : Path) (id : string)
    (props : SsmSessionManagerSettingsProps) (s s' : Stack) (l : Locals) : Prop := {
  wired_this :
    path (this l) = scope ++ [id]
    /\ constructs s' !! loc (this l) = Some (scope ++ [id], CConstruct);
  wired_role :
    constructs s' !! loc (sessionManagerEC2Role l)
    = Some (ec2RoleDeclaration env scope id (loc (sessionManagerEC2Policy l)));
  wired_profile :
    In (instanceProfileDeclaration env scope id) (declaredBy s s');
  wired_user :
    In (userPolicyDeclaration env scope id) (declaredBy s s');
  wired_cloudwatch :
    sendToCloudWatchLogs props = true ->
    constructs s' !! (length (constructs s) + 1) = Some (logsCmkDeclaration env scope id)
    /\ constructs s' !! (length (constructs s) + 2)
       = Some (sessionLogGroupDeclaration scope id (length (constructs s)));
  wired_handler :
    findIn (constructs s) [] handlerLogGroupId = None ->
    scope ++ [id] <> [handlerLogGroupId] ->
    constructs s' !! loc (logGroup l) = Some (handlerLogGroupDeclaration props);
  wired_handler_only :
    findIn (constructs s) [] handlerLogGroupId = None ->
    scope ++ [id] <> [handlerLogGroupId] ->
    List.filter isHandlerLogGroup (declaredBy s s') = [handlerLogGroupDeclaration props];
  wired_id :
    SsmSessionManagerSettings.id l = token ((scope ++ [id]) ++ ["Resource"]) "Ref"
    /\ path (resource l) = (scope ++ [id]) ++ ["Resource"];
  wired_provider :
    path (provider l) = [providerId];
}.

End Wiring.

(** ** More concrete runs *)

Module Scenarios.


(** The key stack of an organization, in its home region. *)
Definition organizationRun : Stack * Outcome KeyStack.Locals :=
  KeyStack.constructor Examples.env Examples.organizationProps Examples.emptyStack.

(** The same organization with an account list that is empty. *)
Definition emptyAccountsProps : KeyStack.AcceleratorStackProps :=
  {| KeyStack.organizationConfig_enable := true;
     KeyStack.accountsConfig := Examples.accounts [];
     KeyStack.macie_enable := true;
     KeyStack.guardduty_enable := false;
     KeyStack.globalConfig_homeRegion := "cn-north-1";
     KeyStack.props_partition := "aws-cn" |}.

(** The stack deployed under a name that is not its path in the tree. *)
Definition renamedEnv : StackEnv :=
  {| region := "cn-north-1";
     partition := "aws-cn";
     account := "111122223333";
     stackName := "AWSAccelerator-KeyStack-111122223333-cn-north-1";
     nodePath := "AWSAccelerator-KeyStack";
     dirname := "/lib" |}.

Definition renamedRun : Stack * Outcome KeyStack.Locals :=
  KeyStack.constructor renamedEnv Examples.organizationProps Examples.emptyStack.

Import SsmSessionManagerSettings.

(** The bucket name given as the empty string. *)
Definition bucketEmpty : SsmSessionManagerSettingsProps :=
  {| s3BucketName := Some "";
     s3KeyPrefix := None;
     s3BucketKeyArn := Some "arn:aws-cn:kms:cn-north-1:111122223333:key/1234";
     sendToS3 := true;
     sendToCloudWatchLogs := false;
     cloudWatchEncryptionEnabled := false;
     kmsKey := Examples.lambdaKey;
     logRetentionInDays := 365 |}.

(** A bucket configured while the S3 destination is switched off. *)
Definition bucketUnused : SsmSessionManagerSettingsProps :=
  {| s3BucketName := Some "central-logs";
     s3KeyPrefix := Some "session";
     s3BucketKeyArn := None;
     sendToS3 := false;
     sendToCloudWatchLogs := false;
     cloudWatchEncryptionEnabled := true;
     kmsKey := Examples.lambdaKey;
     logRetentionInDays := 7 |}.

Definition unusedRun : Stack * Outcome Locals :=
  constructor Examples.env [] "SessionManagerSettings" bucketUnused Examples.stackWithKey.

(** No destination, and a retention of no day for the handler's log group. *)
Definition zeroRetention : SsmSessionManagerSettingsProps :=
  {| s3BucketName := None;
     s3KeyPrefix := None;
     s3BucketKeyArn := None;
     sendToS3 := false;
     sendToCloudWatchLogs := false;
     cloudWatchEncryptionEnabled := false;
     kmsKey := Examples.lambdaKey;
     logRetentionInDays := 0 |}.

End Scenarios.

(** ** Running a constructor body

    A constructor is run step by step on a store [cs ++ l]: [cs] is what the
    stack held before, [l] what the run has declared so far.  Locations of the
    run's own declarations are [length cs + k]. *)

Section Stepping.
Context {A B : Type}.

Lemma bind_ret (a : A) (k : A -> M B) s : bind (ret a) k s = k a s.
Proof. reflexivity. Qed.

Lemma bind_throw (e : Error) (k : A -> M B) s : bind (throw e) k s = (s, Throw e).
Proof. reflexivity. Qed.

Lemma bind_assoc {C} (c : M C) (f : C -> M A) (k : A -> M B) s :
  bind (bind c f) k s = bind c (fun x => bind (f x) k) s.
Proof. unfold bind. destruct (c s) as [s' [x|e]]; reflexivity. Qed.
End Stepping.

Section SteppingStore.
Context {B : Type}.
Implicit Types (cs l : list (Path * Construct)).

Lemma bind_new scope id c (k : Ref -> M B) cs l ns :
  bind (new scope id c) k (mkStack (cs ++ l) ns)
  = k (mkRef (length cs + length l) (scope ++ [id]))
      (mkStack (cs ++ (l ++ [(scope ++ [id], c)])) ns).
Proof.
  unfold bind, new. cbn [constructs nagSuppressions].
  rewrite length_app, <- (assoc_L (++)). reflexivity.
Qed.

Lemma bind_mutate n p f (k : unit -> M B) cs l ns :
  bind (mutate (mkRef (length cs + n) p) f) k (mkStack (cs ++ l) ns)
  = k tt (mkStack (cs ++ alter (fun e => (e.1, f e.2)) n l) ns).
Proof.
  unfold bind, mutate. cbn [constructs nagSuppressions loc].
  rewrite alter_app_r. reflexivity.
Qed.

Lemma bind_tryFindChild scope id (k : option Ref -> M B) s :
  bind (tryFindChild scope id) k s = k (findIn (constructs s) scope id) s.
Proof. reflexivity. Qed.

Lemma bind_serviceTokenOf r (k : option string -> M B) s :
  bind (CustomResourceProvider.serviceTokenOf r) k s
  = k match constructs s !! loc r with
      | Some (_, CCustomResourceProvider _) => Some (token (path r ++ ["Handler"]) "Arn")
      | _ => None
      end s.
Proof. reflexivity. Qed.

Lemma bind_suppress env p sup (k : unit -> M B) cs ns :
  bind (addResourceSuppressionsByPath env p sup) k (mkStack cs ns)
  = if suppressionPathMatches env cs p
    then k tt (mkStack cs (ns ++ [(p, sup)]))
    else (mkStack cs ns, Throw (unmatchedPathError p)).
Proof.
  unfold bind, addResourceSuppressionsByPath. cbn [constructs nagSuppressions].
  destruct (suppressionPathMatches env cs p); reflexivity.
Qed.

Lemma bind_newCompositePrincipal ps (k : Principal -> M B) s :
  bind (newCompositePrincipal ps) k s
  = match ps with
    | [] => (s, Throw emptyCompositeError)
    | _ :: _ => k (CompositePrincipal ps) s
    end.
Proof. destruct ps; reflexivity. Qed.

Lemma bind_newLogGroup scope id p (k : Ref -> M B) cs l ns :
  bind (newLogGroup scope id p) k (mkStack (cs ++ l) ns)
  = if (retention p <=? 0)%Z
    then (mkStack (cs ++ (l ++ [(scope ++ [id], CConstruct)])) ns,
          Throw (retentionError (retention p)))
    else k (mkRef (length cs + length l) (scope ++ [id]))
           (mkStack (cs ++ (l ++ [(scope ++ [id], CLogGroup p)])) ns).
Proof.
  unfold newLogGroup. destruct (retention p <=? 0)%Z; [|apply bind_new].
  unfold bind, new, throw. cbn [constructs nagSuppressions].
  rewrite <- (assoc_L (++)). reflexivity.
Qed.
End SteppingStore.

Lemma lookup_app_add {A} (l1 l2 : list A) (k : nat) :
  (l1 ++ l2) !! (length l1 + k) = l2 !! k.
Proof. induction l1 as [|x l1 IH]; [reflexivity | exact IH]. Qed.

Ltac tidy :=
  cbv beta iota zeta;
  cbn [app length alter list_alter loc path fst snd constructs nagSuppressions forEach].

(** One step of a run: the command at the head of the computation is replaced
    by its effect on the store. *)
Ltac step :=
  lazymatch goal with
  | |- context [@bind ?A ?B ?c ?k ?s] =>
      lazymatch c with
      | bind ?c0 ?f => rewrite (@bind_assoc _ B _ c0 f k s)
      | ret ?a => rewrite (@bind_ret A B a k s)
      | throw ?e => rewrite (@bind_throw A B e k s)
      | new ?sc ?i ?cc =>
          lazymatch s with
          | mkStack (?cs ++ ?l) ?ns => rewrite (bind_new sc i cc k cs l ns)
          end
      | mutate (mkRef (length ?cs + ?n) ?p) ?f =>
          lazymatch s with
          | mkStack (cs ++ ?l) ?ns => rewrite (bind_mutate n p f k cs l ns)
          end
      | tryFindChild ?sc ?i => rewrite (bind_tryFindChild sc i k s)
      | CustomResourceProvider.serviceTokenOf ?r => rewrite (bind_serviceTokenOf r k s)
      | newLogGroup ?sc ?i ?p =>
          lazymatch s with
          | mkStack (?cs ++ ?l) ?ns => rewrite (bind_newLogGroup sc i p k cs l ns)
          end;
          cbn [retention];
          try change (SsmSessionManagerSettings.TEN_YEARS <=? 0)%Z with false
      | newCompositePrincipal ?ps => rewrite (bind_newCompositePrincipal ps k s)
      | addResourceSuppressionsByPath ?e ?p ?sup =>
          lazymatch s with
          | mkStack ?cs ?ns => rewrite (bind_suppress e p sup k cs ns)
          end
      end
  end;
  tidy.

Lemma run_from cs ns : mkStack cs ns = mkStack (cs ++ []) ns.
Proof. rewrite app_nil_r. reflexivity. Qed.

(** ** Children looked up by id *)

Section FindIn.
Implicit Types (cs l : list (Path * Construct)).

Lemma findIn_Some cs scope id r :
  findIn cs scope id = Some r ->
  path r = scope ++ [id]
  /\ (exists c, cs !! loc r = Some (scope ++ [id], c))
  /\ forall j e, cs !! j = Some e -> j < loc r -> e.1 <> scope ++ [id].
Proof.
  unfold findIn.
  destruct (list_find _ cs) as [[i [p c]]|] eqn:Hf; [|discriminate].
  intros [= <-]. apply list_find_Some in Hf as (Hl & Hp & Hm).
  unfold hasPath in Hp. cbn in Hp. subst p. cbn. eauto.
Qed.

Lemma findIn_path cs scope id r :
  findIn cs scope id = Some r -> path r = scope ++ [id].
Proof. intros H. apply findIn_Some in H. tauto. Qed.

Lemma findIn_app_l cs l scope id r :
  findIn cs scope id = Some r -> findIn (cs ++ l) scope id = Some r.
Proof.
  unfold findIn.
  destruct (list_find _ cs) as [[i e]|] eqn:Hf; [|discriminate].
  intros [= <-]. erewrite list_find_app_l; [reflexivity | exact Hf].
Qed.

Lemma findIn_None cs scope id :
  findIn cs scope id = None <-> Forall (fun e => e.1 <> scope ++ [id]) cs.
Proof.
  unfold findIn.
  destruct (list_find _ cs) as [[i e]|] eqn:Hf.
  - split; [discriminate|]. intros Hall.
    apply list_find_Some in Hf as (Hl & Hp & _).
    rewrite Forall_lookup in Hall. destruct (Hall _ _ Hl Hp).
  - split; [|reflexivity]. intros _. apply list_find_None in Hf. exact Hf.
Qed.

Lemma findIn_declared cs scope id c :
  findIn cs scope id = None ->
  findIn (cs ++ [(scope ++ [id], c)]) scope id = Some (mkRef (length cs) (scope ++ [id])).
Proof.
  intros Hn. unfold findIn in *.
  destruct (list_find _ cs) as [[i e]|] eqn:Hf; [discriminate|].
  rewrite list_find_app_r by exact Hf. cbn.
  rewrite decide_True by reflexivity. reflexivity.
Qed.

(** A lookup sees the paths only: mutating a declared construct in place
    does not change what is found. *)
Lemma findIn_paths cs1 cs2 scope id :
  cs1.*1 = cs2.*1 -> findIn cs1 scope id = findIn cs2 scope id.
Proof.
  revert cs2. unfold findIn.
  induction cs1 as [|[p c] cs1 IH]; intros [|[p' c'] cs2]; cbn; try discriminate; [reflexivity|].
  intros [= -> Ht]. specialize (IH _ Ht).
  unfold hasPath at 1 3. cbn [fst].
  destruct (decide (p' = scope ++ [id])) as [->|Hne].
  - rewrite !decide_True by reflexivity. reflexivity.
  - rewrite !decide_False by exact Hne.
    destruct (list_find _ cs1) as [[i e]|], (list_find _ cs2) as [[i' e']|];
      cbn in *; congruence.
Qed.

Lemma findIn_declared_at c0 c1 scope id n :
  findIn c0 scope id = None ->
  c1.*1 = c0.*1 ++ [scope ++ [id]] ->
  n = length c0 ->
  findIn c1 scope id = Some (mkRef n (scope ++ [id])).
Proof.
  intros Hn Hp ->.
  rewrite (findIn_paths c1 (c0 ++ [(scope ++ [id], CConstruct)])).
  - apply findIn_declared, Hn.
  - rewrite Hp, fmap_app. reflexivity.
Qed.

Lemma paths_same cs l1 l2 : l2.*1 = l1.*1 -> (cs ++ l2).*1 = (cs ++ l1).*1.
Proof. intros H. rewrite !fmap_app, H. reflexivity. Qed.

Lemma paths_declared cs l1 l2 (p : Path) :
  l2.*1 = l1.*1 ++ [p] -> (cs ++ l2).*1 = (cs ++ l1).*1 ++ [p].
Proof. intros H. rewrite !fmap_app, H, (assoc_L (++)). reflexivity. Qed.

Lemma findIn_app_Some cs l scope id r :
  findIn (cs ++ l) scope id = Some r ->
  findIn cs scope id <> None \/ Exists (fun e => e.1 = scope ++ [id]) l.
Proof.
  intros Hf. destruct (findIn cs scope id) eqn:Hcs; [left; discriminate|]. right.
  apply findIn_Some in Hf as (_ & (c & Hc) & _).
  apply lookup_app_Some in Hc as [Hc|[_ Hc]].
  - apply findIn_None in Hcs. rewrite Forall_lookup in Hcs.
    destruct (Hcs _ _ Hc). reflexivity.
  - apply Exists_exists. eexists.
    split; [apply list_elem_of_In; eapply list_elem_of_lookup_2, Hc|]. reflexivity.
Qed.

Lemma findIn_In cs scope id c :
  In (scope ++ [id], c) cs -> findIn cs scope id <> None.
Proof.
  intros Hin Hn. apply findIn_None in Hn. rewrite Forall_forall in Hn.
  apply (Hn _ Hin). reflexivity.
Qed.

(** A child of a construct never sits directly under the stack. *)
Lemma path_child_not_root (p : Path) (x y : string) scope id :
  p = scope ++ [id] -> p ++ [x] <> [y].
Proof.
  intros -> H. apply (f_equal length) in H. rewrite !length_app in H. cbn in H. lia.
Qed.
End FindIn.

(** ** The key stack *)

Module KeyStackFacts.
Import KeyStack.

(** The whole run in closed form.  The run throws in the home region of an
    organization only: when the composite of an empty account list is asked
    for, before the role is declared, and when the suppression path matches
    no construct, after it. *)
Lemma constructor_run env props s : constructor env props s = closedForm env props s.
Proof.
  destruct s as [cs ns]. unfold closedForm, roleRequested, emptyCompositeRequested,
    baseDeclarations, roleDeclaration, trustPrincipal, organizationIdOf, keyLoc,
    addedStatements, suppressionPath, crossAccountRolePath.
  cbn [constructs nagSuppressions].
  rewrite (run_from cs ns).
  unfold constructor, addToResourcePolicy, allowedServicePrincipals,
    configuredAccountPrincipals, crossAccountAssumedBy.
  destruct (organizationConfig_enable props),
           (macie_enable props), (guardduty_enable props),
           (bool_decide (region env = globalConfig_homeRegion props)).
  all: tidy; repeat step; cbn [andb]; tidy; repeat step.
  all: try (unfold ret; cbn [map app]; rewrite <- ?Nat.add_assoc, ?Nat.add_0_r, ?app_nil_r;
            reflexivity).
  all: destruct (bool_decide (props_partition props = "aws-cn")); cbn [andb].
  all: destruct (accountIdsOf props) as [[|a l]|];
    rewrite ?(bool_decide_eq_true_2 (Some _ <> None)) by discriminate;
    rewrite ?(bool_decide_eq_false_2 (None <> None)) by (intros H; exact (H eq_refl));
    cbn [default map]; repeat step; cbn [map app].
  all: try reflexivity.
  all: rewrite <- ?Nat.add_assoc; cbn [Nat.add].
  all: match goal with
       | |- context [suppressionPathMatches ?e ?c ?p] =>
           destruct (suppressionPathMatches e c p)
       end.
  all: repeat step; reflexivity.
Qed.

(** What a run has declared, however it ends. *)
Lemma run_constructs env props s :
  constructs (constructor env props s).1
  = constructs s
    ++ baseDeclarations env props
    ++ (if roleRequested env props && negb (emptyCompositeRequested props)
        then [roleDeclaration env props] else []).
Proof.
  rewrite constructor_run. unfold closedForm.
  destruct (roleRequested env props), (emptyCompositeRequested props); cbn [andb negb fst];
    try destruct (suppressionPathMatches _ _ _); cbn [fst constructs];
    rewrite ?app_nil_r; reflexivity.
Qed.

Lemma run_declared env props s :
  declaredBy s (constructor env props s).1
  = baseDeclarations env props
    ++ (if roleRequested env props && negb (emptyCompositeRequested props)
        then [roleDeclaration env props] else []).
Proof. unfold declaredBy. rewrite run_constructs. apply drop_app_length. Qed.

(** The suppression is registered by the runs that return with a role. *)
Lemma run_suppressions env props s :
  nagSuppressions (constructor env props s).1
  = nagSuppressions s
    ++ (if roleRequested env props && returns (constructor env props s).2
        then [(suppressionPath env, [ssmParameterSuppression])] else []).
Proof.
  rewrite constructor_run. unfold closedForm.
  destruct (roleRequested env props), (emptyCompositeRequested props); cbn [andb negb fst];
    try destruct (suppressionPathMatches _ _ _); cbn [fst snd returns nagSuppressions andb];
    rewrite ?app_nil_r; reflexivity.
Qed.

Lemma run_key env props s :
  constructs (constructor env props s).1 !! keyLoc props s
  = Some (["AcceleratorKey"], CKey acceleratorKeyProps (addedStatements env props)).
Proof.
  rewrite run_constructs. unfold keyLoc, baseDeclarations.
  rewrite lookup_app_add.
  destruct (organizationConfig_enable props); reflexivity.
Qed.

Lemma run_Return env props s s' l :
  constructor env props s = (s', Return l) ->
  organizationId l = organizationIdOf props
  /\ key l = mkRef (keyLoc props s) ["AcceleratorKey"]
  /\ crossAccountRole l
     = (if roleRequested env props
        then Some (mkRef (keyLoc props s + 2) crossAccountRolePath) else None)
  /\ (roleRequested env props = true -> emptyCompositeRequested props = false).
Proof.
  rewrite constructor_run. unfold closedForm.
  destruct (roleRequested env props), (emptyCompositeRequested props);
    try destruct (suppressionPathMatches _ _ _); intros [= <- <-]; auto.
Qed.

Lemma roleRequested_true env props :
  roleRequested env props = true
  <-> region env = globalConfig_homeRegion props /\ organizationConfig_enable props = true.
Proof. unfold roleRequested. rewrite andb_true_iff, bool_decide_eq_true. reflexivity. Qed.

Lemma emptyCompositeRequested_true props :
  emptyCompositeRequested props = true
  <-> props_partition props = "aws-cn" /\ accountIdsOf props = Some [].
Proof.
  unfold emptyCompositeRequested. rewrite andb_true_iff, bool_decide_eq_true.
  destruct (accountIdsOf props) as [[|a l]|]; intuition discriminate.
Qed.

Lemma account_principals_not_service (l : list AccountIdConfig) service :
  ServicePrincipal service ∉ map (fun item => AccountPrincipal (accountId item)) l.
Proof. intros H. apply list_elem_of_fmap in H as (x & Hx & _). discriminate. Qed.

Lemma serviceStatement_grants (pol : list PolicyStatement) item :
  serviceStatement item ∈ pol -> grantsKeyUse pol (principal item).
Proof.
  intros Hin. exists (serviceStatement item). split; [exact Hin|].
  cbn. split; [reflexivity|]. split; [reflexivity|]. unfold keyUseActions.
  repeat split; repeat constructor.
Qed.

Lemma encrypt_not_wildcard (a : string) :
  a ∈ ["kms:Encrypt*"; "kms:Decrypt*"; "kms:ReEncrypt*"; "kms:GenerateDataKey*"; "kms:Describe*"] ->
  a <> "kms:Encrypt".
Proof.
  intros H ->. apply list_elem_of_In in H. cbn in H.
  repeat (destruct H as [H|H]; [discriminate H|]). exact H.
Qed.

(** The services the added statements let use the key are those of the list. *)
Lemma grants_allowed env props service :
  grantsKeyUse (addedStatements env props) service
  <-> exists item, item ∈ allowedServicePrincipals props /\ principal item = service.
Proof.
  unfold addedStatements. split.
  - intros (st & Hin & _ & Hp & He & _).
    apply elem_of_app in Hin as [Hin|Hin].
    + destruct (organizationConfig_enable props); [|inversion Hin].
      apply list_elem_of_singleton in Hin. subst st. cbn in Hp.
      assert (Hs : ServicePrincipal service
                   ∈ match accountIdsOf props with
                     | Some l => map (fun item => AccountPrincipal (accountId item)) l
                     | None => []
                     end) by (rewrite Hp; constructor).
      destruct (accountIdsOf props) as [ids|]; [|inversion Hs].
      destruct (account_principals_not_service _ _ Hs).
    + apply elem_of_cons in Hin as [->|Hin].
      * destruct (encrypt_not_wildcard _ He). reflexivity.
      * apply list_elem_of_fmap in Hin as (item & -> & Hitem).
        exists item. split; [exact Hitem|].
        cbn in Hp. congruence.
  - intros (item & Hitem & <-). apply serviceStatement_grants.
    apply elem_of_app. right. apply elem_of_cons. right.
    apply list_elem_of_fmap. eauto.
Qed.

(** The service principals the added statements name. *)
Lemma names_service env props service :
  namesPrincipal (addedStatements env props) (ServicePrincipal service) ->
  service = "logs.amazonaws.com.cn"
  \/ exists item, item ∈ allowedServicePrincipals props /\ principal item = service.
Proof.
  unfold addedStatements. intros (st & Hin & Hp).
  apply elem_of_app in Hin as [Hin|Hin].
  - destruct (organizationConfig_enable props); [|inversion Hin].
    apply list_elem_of_singleton in Hin. subst st. cbn in Hp.
    destruct (accountIdsOf props) as [ids|]; [|inversion Hp].
    destruct (account_principals_not_service _ _ Hp).
  - apply elem_of_cons in Hin as [->|Hin].
    + left. cbn in Hp. apply list_elem_of_singleton in Hp. congruence.
    + right. apply list_elem_of_fmap in Hin as (item & -> & Hitem).
      exists item. split; [exact Hitem|].
      cbn in Hp. apply list_elem_of_singleton in Hp. congruence.
Qed.

Ltac allowed_cases H :=
  let item := fresh "item" in
  let Hitem := fresh "Hitem" in
  let Hp := fresh "Hp" in
  destruct H as (item & Hitem & Hp); apply list_elem_of_In in Hitem; cbn in Hitem;
  repeat (destruct Hitem as [<-|Hitem]; [discriminate Hp|]); destruct Hitem.

(** C8.  Whatever the configuration and however the run ends, the stack holds
    the shared key, the only key the run declares, and the statements added
    to its resource policy let the notification (SNS), function (Lambda) and
    monitoring (CloudWatch) services, each in a statement of its own, encrypt
    and decrypt on every resource and under no condition.  They let the
    data-classification service (Macie) do so exactly when Macie is enabled,
    and the threat-detection service (GuardDuty) exactly when GuardDuty is
    enabled: with the flag unset no statement names the service at all. *)
Theorem key_grants_service_principals env props s :
  exists pol,
    constructs (constructor env props s).1 !! keyLoc props s
    = Some (["AcceleratorKey"], CKey acceleratorKeyProps pol)
    /\ List.filter (fun d => isKey d.2) (declaredBy s (constructor env props s).1)
       = [(["AcceleratorKey"], CKey acceleratorKeyProps pol)]
    /\ (forall l, (constructor env props s).2 = Return l ->
          key l = mkRef (keyLoc props s) ["AcceleratorKey"])
    /\ grantsKeyUse pol "sns.amazonaws.com"
    /\ grantsKeyUse pol "lambda.amazonaws.com"
    /\ grantsKeyUse pol "cloudwatch.amazonaws.com"
    /\ (grantsKeyUse pol "macie.amazonaws.com" <-> macie_enable props = true)
    /\ (grantsKeyUse pol "guardduty.amazonaws.com" <-> guardduty_enable props = true)
    /\ (macie_enable props = false ->
        ~ namesPrincipal pol (ServicePrincipal "macie.amazonaws.com"))
    /\ (guardduty_enable props = false ->
        ~ namesPrincipal pol (ServicePrincipal "guardduty.amazonaws.com")).
Proof.
  exists (addedStatements env props).
  split; [apply run_key|].
  split.
  { rewrite run_declared. unfold baseDeclarations, roleDeclaration.
    destruct (organizationConfig_enable props),
      (roleRequested env props && negb (emptyCompositeRequested props)); reflexivity. }
  split.
  { intros l Hl. destruct (constructor env props s) as [s' o] eqn:Hrun.
    cbn in Hl. subst o. apply run_Return in Hrun. tauto. }
  rewrite !grants_allowed.
  assert (Hpick : forall n svc, mkItem n svc ∈ allowedServicePrincipals props ->
                    exists item, item ∈ allowedServicePrincipals props /\ principal item = svc)
    by (intros n svc H; exists (mkItem n svc); split; [exact H | reflexivity]).
  split; [apply (Hpick "Sns"); unfold allowedServicePrincipals;
          destruct (macie_enable props), (guardduty_enable props); repeat constructor|].
  split; [apply (Hpick "Lambda"); unfold allowedServicePrincipals;
          destruct (macie_enable props), (guardduty_enable props); repeat constructor|].
  split; [apply (Hpick "Cloudwatch"); unfold allowedServicePrincipals;
          destruct (macie_enable props), (guardduty_enable props); repeat constructor|].
  split.
  { split.
    - intros H. unfold allowedServicePrincipals in H.
      destruct (macie_enable props); [reflexivity|].
      destruct (guardduty_enable props); allowed_cases H.
    - intros Hm. apply (Hpick "Macie"). unfold allowedServicePrincipals. rewrite Hm.
      destruct (guardduty_enable props); repeat constructor. }
  split.
  { split.
    - intros H. unfold allowedServicePrincipals in H.
      destruct (guardduty_enable props); [reflexivity|].
      destruct (macie_enable props); allowed_cases H.
    - intros Hg. apply (Hpick "Guardduty"). unfold allowedServicePrincipals. rewrite Hg.
      destruct (macie_enable props); repeat constructor. }
  split.
  - intros Hm Hn. apply names_service in Hn as [Hn|Hn]; [discriminate Hn|].
    unfold allowedServicePrincipals in Hn. rewrite Hm in Hn.
    destruct (guardduty_enable props); allowed_cases Hn.
  - intros Hg Hn. apply names_service in Hn as [Hn|Hn]; [discriminate Hn|].
    unfold allowedServicePrincipals in Hn. rewrite Hg in Hn.
    destruct (macie_enable props); allowed_cases Hn.
Qed.

(** C3.  With organization mode disabled the key stack declares no role (so
    no cross-account role), and the resource policy of the key is the logging
    statement followed by the service statements: every principal it names
    is a service principal, none is an organization or an account principal,
    whatever the region, the partition and the account list. *)
Theorem standalone_no_organization_grants env props s :
  organizationConfig_enable props = false ->
  exists s' l pol ds,
    constructor env props s = (s', Return l)
    /\ constructs s' = constructs s ++ ds
    /\ crossAccountRole l = None
    /\ Forall (fun d => isRole d.2 = false) ds
    /\ constructs s' !! loc (key l) = Some (["AcceleratorKey"], CKey acceleratorKeyProps pol)
    /\ pol = cloudwatchLogsStatement :: map serviceStatement (allowedServicePrincipals props)
    /\ Forall (fun st => Forall (fun p => isServicePrincipal p = true) (principals st)) pol
    /\ Forall (fun st => Forall (fun p => isOrganizationPrincipal p = false
                                         /\ isAccountPrincipal p = false) (principals st)) pol.
Proof.
  intros Horg. destruct s as [cs ns].
  pose proof (constructor_run env props (mkStack cs ns)) as Hrun.
  unfold closedForm, roleRequested, baseDeclarations, addedStatements, keyLoc,
    organizationIdOf in Hrun.
  rewrite Horg, andb_false_r in Hrun. cbn [app constructs nagSuppressions] in Hrun.
  do 4 eexists. split; [exact Hrun|]. cbn [constructs crossAccountRole key loc].
  split; [reflexivity|]. split; [reflexivity|].
  split; [repeat constructor|].
  split; [rewrite lookup_app_add; reflexivity|].
  split; [reflexivity|].
  unfold allowedServicePrincipals.
  destruct (macie_enable props), (guardduty_enable props); split; repeat constructor.
Qed.

Lemma standalone_no_organization_grants_witness :
  exists s' l pol ds,
    constructor Examples.env Examples.standaloneProps Examples.emptyStack = (s', Return l)
    /\ constructs s' = constructs Examples.emptyStack ++ ds
    /\ crossAccountRole l = None
    /\ Forall (fun d => isRole d.2 = false) ds
    /\ constructs s' !! loc (key l) = Some (["AcceleratorKey"], CKey acceleratorKeyProps pol)
    /\ pol = cloudwatchLogsStatement
             :: map serviceStatement (allowedServicePrincipals Examples.standaloneProps)
    /\ Forall (fun st => Forall (fun p => isServicePrincipal p = true) (principals st)) pol
    /\ Forall (fun st => Forall (fun p => isOrganizationPrincipal p = false
                                         /\ isAccountPrincipal p = false) (principals st)) pol.
Proof.
  apply (standalone_no_organization_grants Examples.env Examples.standaloneProps
           Examples.emptyStack).
  reflexivity.
Defined.

(** C2 as stated fails: in the home region of an organization of the
    ["aws-cn"] partition, with an account list that is present and empty, the
    composite of the account principals cannot be built.  The run throws, and
    the stack holds no role. *)
Lemma empty_account_list_no_role :
  region Examples.env = globalConfig_homeRegion Scenarios.emptyAccountsProps
  /\ organizationConfig_enable Scenarios.emptyAccountsProps = true
  /\ props_partition Scenarios.emptyAccountsProps = "aws-cn"
  /\ accountIdsOf Scenarios.emptyAccountsProps = Some []
  /\ exists s' e,
       constructor Examples.env Scenarios.emptyAccountsProps Examples.emptyStack
       = (s', Throw e)
       /\ e = emptyCompositeError
       /\ Forall (fun d => isRole d.2 = false) (constructs s').
Proof.
  do 4 (split; [reflexivity|]).
  do 2 eexists. split; [vm_compute; reflexivity|]. split; [reflexivity|].
  repeat constructor.
Qed.

(** C2, as the code has it.  In the home region with organization mode
    enabled, the run declares the cross-account role unless the partition is
    ["aws-cn"] and the account-id list is present and empty: then the
    composite cannot be built, the run throws and no role is declared.  The
    role, the only one the run declares, is assumed by the composite of the
    configured account principals exactly when the partition is ["aws-cn"]
    and the account-id list is present, by the organization principal
    otherwise.  In particular, with partition ["aws-cn"] and the accounts [a]
    and [b] it is assumed by the composite of [a] and [b]. *)
Theorem cross_account_trust_principal env props s s' o :
  region env = globalConfig_homeRegion props ->
  organizationConfig_enable props = true ->
  constructor env props s = (s', o) ->
  (props_partition props = "aws-cn" /\ accountIdsOf props = Some [] ->
   o = Throw emptyCompositeError
   /\ Forall (fun d => isRole d.2 = false) (declaredBy s s'))
  /\ (~ (props_partition props = "aws-cn" /\ accountIdsOf props = Some []) ->
      exists rp,
        List.filter (fun d => isRole d.2) (declaredBy s s')
        = [(["CrossAccountAcceleratorSsmParamAccessRole"], CRole rp)]
        /\ constructs s' !! (length (constructs s) + 3)
           = Some (["CrossAccountAcceleratorSsmParamAccessRole"], CRole rp)
        /\ (forall l, o = Return l ->
              crossAccountRole l
              = Some (mkRef (length (constructs s) + 3)
                        ["CrossAccountAcceleratorSsmParamAccessRole"])
              /\ organizationId l = token ["Organization"] "id")
        /\ roleName rp = "AWSAccelerator-CrossAccount-SsmParameter-Role"
        /\ (props_partition props = "aws-cn" /\ accountIdsOf props <> None ->
            assumedBy rp = CompositePrincipal (configuredAccountPrincipals props)
            /\ configuredAccountPrincipals props <> [])
        /\ (~ (props_partition props = "aws-cn" /\ accountIdsOf props <> None) ->
            assumedBy rp = OrganizationPrincipal (token ["Organization"] "id"))
        /\ ((exists ps, assumedBy rp = CompositePrincipal ps)
            <-> props_partition props = "aws-cn" /\ accountIdsOf props <> None)
        /\ (forall ea a eb b,
              props_partition props = "aws-cn" ->
              accountIdsOf props = Some [mkAccountIdConfig ea a; mkAccountIdConfig eb b] ->
              assumedBy rp = CompositePrincipal [AccountPrincipal a; AccountPrincipal b])).
Proof.
  intros Hhome Horg Hrun.
  assert (Hreq : roleRequested env props = true) by (apply roleRequested_true; auto).
  assert (Hs' : s' = (constructor env props s).1) by (rewrite Hrun; reflexivity).
  assert (Hdecl := run_declared env props s). rewrite <- Hs', Hreq in Hdecl.
  assert (Hcs := run_constructs env props s). rewrite <- Hs', Hreq in Hcs.
  unfold baseDeclarations in Hdecl, Hcs. rewrite Horg in Hdecl, Hcs.
  cbn [andb app] in Hdecl, Hcs.
  split.
  - intros Hempty. apply emptyCompositeRequested_true in Hempty.
    rewrite Hempty in Hdecl. cbn [negb] in Hdecl.
    split; [|rewrite Hdecl; repeat constructor].
    rewrite constructor_run in Hrun. unfold closedForm in Hrun.
    rewrite Hreq, Hempty in Hrun. congruence.
  - intros Hne.
    assert (Hempty : emptyCompositeRequested props = false).
    { destruct (emptyCompositeRequested props) eqn:E; [|reflexivity].
      apply emptyCompositeRequested_true in E. destruct (Hne E). }
    rewrite Hempty in Hdecl, Hcs. cbn [negb] in Hdecl, Hcs.
    eexists. split; [rewrite Hdecl; reflexivity|].
    split; [rewrite Hcs, lookup_app_add; reflexivity|].
    split.
    { intros l ->. apply run_Return in Hrun as (Hid & _ & Hrole & _).
      rewrite Hreq in Hrole. unfold keyLoc, organizationIdOf in *.
      rewrite Horg in *. rewrite <- Nat.add_assoc in Hrole. split; assumption. }
    split; [reflexivity|]. cbn [assumedBy]. unfold trustPrincipal, organizationIdOf.
    rewrite Horg.
    destruct (decide (props_partition props = "aws-cn")) as [Hcn|Hcn];
      [ rewrite (bool_decide_eq_true_2 _ Hcn) | rewrite (bool_decide_eq_false_2 _ Hcn) ];
      cbn [andb].
    + destruct (decide (accountIdsOf props <> None)) as [Hids|Hids];
        [ rewrite (bool_decide_eq_true_2 _ Hids) | rewrite (bool_decide_eq_false_2 _ Hids) ].
      * split.
        { intros _. split; [reflexivity|]. unfold configuredAccountPrincipals.
          destruct (accountIdsOf props) as [[|x l]|]; [|discriminate|].
          - destruct Hne. split; [exact Hcn | reflexivity].
          - destruct Hids. reflexivity. }
        split; [tauto|]. split; [split; eauto|].
        intros ea a eb b _ Hl. unfold configuredAccountPrincipals. rewrite Hl. reflexivity.
      * split; [tauto|]. split; [reflexivity|].
        split; [split; [intros [ps Hps]; discriminate Hps | tauto]|].
        intros ea a eb b _ Hl. destruct Hids. rewrite Hl. discriminate.
    + split; [tauto|]. split; [reflexivity|].
      split; [split; [intros [ps Hps]; discriminate Hps | tauto]|].
      intros ea a eb b Hp. destruct (Hcn Hp).
Qed.

Lemma cross_account_trust_principal_witness :
  exists rp,
    constructs Scenarios.organizationRun.1 !! 3
    = Some (["CrossAccountAcceleratorSsmParamAccessRole"], CRole rp)
    /\ assumedBy rp
       = CompositePrincipal [AccountPrincipal "111111111111"; AccountPrincipal "222222222222"].
Proof.
  destruct (cross_account_trust_principal Examples.env Examples.organizationProps
              Examples.emptyStack Scenarios.organizationRun.1 Scenarios.organizationRun.2
              eq_refl eq_refl)
    as [_ Hrole].
  - vm_compute. reflexivity.
  - destruct Hrole as (rp & _ & Hlook & _ & _ & _ & _ & _ & Hab).
    + intros [_ Hempty]. discriminate Hempty.
    + exists rp. split; [exact Hlook|].
      exact (Hab _ _ _ _ eq_refl eq_refl).
Defined.
End KeyStackFacts.

(** ** The settings construct: how a run ends *)

Module SettingsFacts.
Import SsmSessionManagerSettings.

Ltac find_cases :=
  match goal with
  | |- context [findIn ?c ?p ?i] =>
      let H := fresh "Hfind" in
      let r := fresh "r" in
      let rp := fresh "rp" in
      destruct (findIn c p i) as [[r rp]|] eqn:H;
      [ let Hp := fresh in
        pose proof (findIn_path _ _ _ _ H) as Hp; cbn [path app] in Hp; subst rp | ]
  end.

(** The retention is looked at when the run creates the handler's log group. *)
Ltac retention_cases :=
  match goal with
  | |- context [(logRetentionInDays ?p <=? 0)%Z] =>
      let H := fresh "Hret" in
      destruct (logRetentionInDays p <=? 0)%Z eqn:H
  end.

(** The service token is whatever the provider object yields. *)
Ltac forget_token :=
  match goal with
  | |- context [mkCustomResourceProps _ ?t _] =>
      lazymatch t with
      | match _ with _ => _ end => generalize t; intro
      end
  end.

Ltac run :=
  repeat (repeat step; cbn [nodeId List.last orb negb]; try forget_token;
          try find_cases; try retention_cases).

Ltac unfold_spec :=
  unfold agentPolicyDeclaration, agentPolicyDocument, sessionCmkDeclaration,
    logsCmkDeclaration, sessionLogGroupDeclaration, sessionCmkPath,
    customResourceProperties, sessionLogGroupName, addStatements,
    cloudWatchStatements.

Ltac pick := cbn [In]; repeat first [left; reflexivity | right].

Ltac flags :=
  repeat match goal with
         | H : _ = true |- _ => rewrite H
         | H : _ = false |- _ => rewrite H
         end.

Ltac assembled :=
  constructor; cbn [constructs]; unfold_spec; flags;
  [ intros ?; first [discriminate | split; reflexivity]
  | eexists; split; [reflexivity|];
    split; [reflexivity|];
    split; [pick | intros ?; first [discriminate | pick]] ].

Ltac lookup_found :=
  match goal with
  | H : findIn ?B [] _ = Some _ |- findIn _ _ _ = Some _ =>
      rewrite (findIn_paths _ B); [exact H | apply paths_same; reflexivity]
  | H : findIn ?B [] _ = None |- findIn _ _ _ = Some _ =>
      apply (findIn_declared_at B);
      [exact H | apply paths_declared; reflexivity | rewrite length_app; reflexivity]
  end.

Ltac lookup_earlier :=
  let g := fresh "g" in
  let Hg := fresh "Hg" in
  intros g Hg;
  match goal with
  | H : findIn (?c0 ++ ?L) [] _ = ?v |- _ =>
      let E := fresh in
      assert (E : v = Some g)
        by (etrans; [symmetry; exact H | exact (findIn_app_l c0 L _ _ _ Hg)]);
      first
        [ discriminate E
        | injection E as <-;
          split; [reflexivity|];
          let ds := fresh "ds" in
          let Hds := fresh "Hds" in
          intros ds Hds; apply app_inv_head in Hds; subst ds;
          repeat first [apply List.Forall_nil | apply List.Forall_cons];
          let Hp := fresh "Hp" in
          let Hk := fresh "Hk" in
          cbn [fst snd isLogGroup]; intros [Hp Hk];
          first [ discriminate Hk | exact (path_child_not_root _ _ _ _ _ eq_refl Hp) ] ]
  end.

(** Under a provider that the run has just declared the handler is found. *)
Ltac provider_found :=
  match goal with
  | H : findIn (_ ++ _) [] _ = Some _ |- _ =>
      apply findIn_app_Some in H as [H|H]; [left; exact H|];
      repeat (apply Exists_cons in H as [H|H];
              [cbn [fst app] in H;
               first [ right; exact H
                     | destruct (path_child_not_root _ _ _ _ _ eq_refl H) ] |]);
      inversion H
  | H : findIn ?l [?p] "Handler" = None |- _ =>
      exfalso;
      refine (findIn_In l [p] "Handler" (CCfnResource "AWS::Lambda::Function") _ H);
      apply in_or_app; right; pick
  end.

Ltac completed :=
  constructor; unfold_spec; flags;
  cbn [constructs sessionManagerEC2PolicyDocument sessionManagerLogGroupName
         sessionManagerSessionCmk sessionManagerEC2Policy resource logGroup loc path];
  first
    [ reflexivity
    | rewrite lookup_app_add; reflexivity
    | eexists; rewrite lookup_app_add; reflexivity
    | lookup_found
    | lookup_earlier ].

(** The lookup of the handler's log group has succeeded: the stack held it,
    or the construct itself sits under its id. *)
Ltac there_found :=
  left; unfold handlerLogGroupThere; cbn [constructs];
  match goal with
  | H : findIn (_ ++ _) [] _ = Some _ |- _ =>
      let H' := fresh in
      pose proof H as H';
      apply findIn_app_Some in H' as [H'|H']; [left; exact H'|];
      repeat (apply Exists_cons in H' as [H'|H'];
              [cbn [fst app] in H';
               first [ right; exact H'
                     | destruct (path_child_not_root _ _ _ _ _ eq_refl H')
                     | vm_compute in H'; discriminate H' ] |]);
      inversion H'
  end.

(** The lookup has failed: the stack did not hold it, and the construct has
    another id. *)
Ltac not_there :=
  unfold handlerLogGroupThere; cbn [constructs];
  match goal with
  | H : findIn (?c ++ ?l) [] _ = None |- _ =>
      let Hc := fresh in
      let Hid := fresh in
      let E := fresh in
      intros [Hc|Hid];
      [ apply Hc; destruct (findIn c [] handlerLogGroupId) eqn:E; [|reflexivity];
        discriminate (eq_trans (eq_sym H) (findIn_app_l c l _ _ _ E))
      | refine (findIn_In (c ++ l) [] handlerLogGroupId CConstruct _ H);
        apply in_or_app; right; left; rewrite Hid; reflexivity ]
  end.

Lemma constructor_ends env scope id props s s' o :
  constructor env scope id props s = (s', o) ->
  Ends env scope id props s s' o.
Proof.
  destruct s as [cs ns].
  unfold constructor, addToResourcePolicy, addDependency, findChild,
    CustomResourceProvider.getOrCreateProvider, CustomResourceProvider.constructor.
  rewrite (run_from cs ns) at 1.
  destruct (sendToCloudWatchLogs props) eqn:Hcw, (sendToS3 props) eqn:Hs3;
    [ destruct (truthy (s3BucketKeyArn props)) eqn:Hkey,
               (truthy (s3BucketName props)) eqn:Hbucket | |
      destruct (truthy (s3BucketKeyArn props)) eqn:Hkey,
               (truthy (s3BucketName props)) eqn:Hbucket | ].
  all: run.
  all: unfold ret; intros [= <- <-]; unfold Ends.
  all: lazymatch goal with
       | |- _ \/ _ =>
           first [ left; split; [reflexivity|]; split; [assumption|]; auto; fail
                 | right; left; split; [reflexivity|]; split; [assembled | provider_found]
                 | right; right; split; [reflexivity|]; split; [assembled|];
                   split; [apply Z.leb_le; assumption | not_there] ]
       | |- _ /\ _ =>
           split; [assembled|]; split; [completed|];
           first [ right; apply Z.leb_gt; assumption | there_found ]
       end.
Qed.

Lemma constructor_assembled env scope id props s s' o :
  constructor env scope id props s = (s', o) ->
  (sendToS3 props = true ->
   truthy (s3BucketKeyArn props) = true /\ truthy (s3BucketName props) = true) ->
  Assembled env scope id props s s'.
Proof.
  intros Hrun Hvalid. apply constructor_ends in Hrun.
  destruct o as [l|e]; cbn in Hrun; [tauto|].
  destruct Hrun as [(_ & Hs3 & Hmiss)|[(_ & Has & _)|(_ & Has & _)]]; [|exact Has..].
  destruct (Hvalid Hs3) as [Hk Hb]. rewrite Hk, Hb in Hmiss.
  destruct Hmiss; discriminate.
Qed.

(** On a stack that holds no provider yet, a run whose S3 settings are valid
    and whose retention is positive returns. *)
Lemma constructor_completes env scope id props s :
  (sendToS3 props = true ->
   truthy (s3BucketKeyArn props) = true /\ truthy (s3BucketName props) = true) ->
  findIn (constructs s) [] providerId = None ->
  scope ++ [id] <> [providerId] ->
  (0 < logRetentionInDays props)%Z ->
  exists s' l, constructor env scope id props s = (s', Return l).
Proof.
  intros Hvalid Hfresh Hid Hpos.
  destruct (constructor env scope id props s) as [s' [l|e]] eqn:Hrun; [eauto|].
  apply constructor_ends in Hrun. cbn in Hrun.
  destruct Hrun as [(_ & Hs3 & Hmiss)|[(_ & _ & [Hp|Hp])|(_ & _ & Hle & _)]].
  - destruct (Hvalid Hs3) as [Hk Hb]. rewrite Hk, Hb in Hmiss.
    destruct Hmiss; discriminate.
  - destruct (Hp Hfresh).
  - destruct (Hid Hp).
  - lia.
Qed.

Lemma constructor_Return env scope id props s s' l :
  constructor env scope id props s = (s', Return l) ->
  Assembled env scope id props s s' /\ Completed env scope id props s s' l.
Proof.
  intros Hrun. apply constructor_ends in Hrun. cbn in Hrun. tauto.
Qed.



(** The statements of the agent policy, by the destinations enabled. *)
Lemma agentPolicyDocument_length env scope id props :
  length (agentPolicyDocument env scope id props)
  = 2 + (if sendToCloudWatchLogs props then 2 else 0) + (if sendToS3 props then 3 else 0).
Proof.
  unfold agentPolicyDocument.
  destruct (sendToCloudWatchLogs props), (sendToS3 props); reflexivity.
Qed.

(** C1, as the code has it.  With [sendToS3] set and the bucket name or the
    key ARN missing, the run throws the validation error.  The check comes
    after the CloudWatch block: at the throw the stack holds the construct's
    own node and, when [sendToCloudWatchLogs] is set, the CloudWatch logs key
    and the session-manager log group, and nothing else of the run; with
    [sendToCloudWatchLogs] unset no resource has been declared. *)
Theorem missing_bucket_fails env scope id props s :
  sendToS3 props = true ->
  truthy (s3BucketName props) = false \/ truthy (s3BucketKeyArn props) = false ->
  let ds := (scope ++ [id], CConstruct)
            :: cloudWatchDeclarations env scope id props (length (constructs s)) in
  constructor env scope id props s
  = (mkStack (constructs s ++ ds) (nagSuppressions s), Throw validationError)
  /\ (sendToCloudWatchLogs props = false -> Forall (fun d => isResource d.2 = false) ds)
  /\ (sendToCloudWatchLogs props = true ->
      List.filter (fun d => isResource d.2) ds
      = [logsCmkDeclaration env scope id;
         sessionLogGroupDeclaration scope id (length (constructs s))]).
Proof.
  intros Hs3 Hmiss ds. subst ds. destruct s as [cs ns].
  unfold constructor, addToResourcePolicy, cloudWatchDeclarations.
  rewrite (run_from cs ns) at 1. rewrite Hs3.
  assert (Hbad : negb (truthy (s3BucketKeyArn props)) || negb (truthy (s3BucketName props))
                 = true)
    by (destruct Hmiss as [-> | ->]; [apply orb_true_r | reflexivity]).
  rewrite Hbad. cbn [constructs nagSuppressions].
  destruct (sendToCloudWatchLogs props).
  - repeat step. split; [reflexivity|]. split; [discriminate | reflexivity].
  - repeat step. split; [reflexivity|]. split; [repeat constructor | discriminate].
Qed.

Lemma missing_bucket_fails_witness :
  constructor Examples.env [] "SessionManagerSettings" Examples.bucketMissing
    Examples.stackWithKey
  = (mkStack
       (constructs Examples.stackWithKey
          ++ [(["SessionManagerSettings"], CConstruct);
              logsCmkDeclaration Examples.env [] "SessionManagerSettings";
              sessionLogGroupDeclaration [] "SessionManagerSettings" 1])
       [],
     Throw validationError).
Proof.
  exact (proj1 (missing_bucket_fails Examples.env [] "SessionManagerSettings"
                  Examples.bucketMissing Examples.stackWithKey
                  eq_refl (or_introl eq_refl))).
Defined.

(** C1 as stated fails: with both destinations requested and no bucket name
    the validation error is raised after a key and a log group have been
    declared. *)
Lemma missing_bucket_resources_declared :
  exists s' e,
    constructor Examples.env [] "SessionManagerSettings" Examples.bucketMissing
      Examples.stackWithKey = (s', Throw e)
    /\ e = validationError
    /\ Exists (fun d => isKey d.2 = true)
         (drop (length (constructs Examples.stackWithKey)) (constructs s'))
    /\ Exists (fun d => isLogGroup d.2 = true)
         (drop (length (constructs Examples.stackWithKey)) (constructs s')).
Proof.
  do 2 eexists. split; [vm_compute; reflexivity|]. split; [reflexivity|].
  split.
  - apply Exists_cons_tl, Exists_cons_hd. reflexivity.
  - apply Exists_cons_tl, Exists_cons_tl, Exists_cons_hd. reflexivity.
Qed.




(** C5.  For two runs that return, if every destination enabled in the first
    is enabled in the second, the agent policy of the first has at most as
    many statements as that of the second: the document is the base
    statement, one block per enabled destination (two statements for
    CloudWatch, three for S3) and the session-key statement. *)
Theorem agent_policy_grows_with_destinations
    env1 scope1 id1 props1 s1 s1' l1 env2 scope2 id2 props2 s2 s2' l2 :
  constructor env1 scope1 id1 props1 s1 = (s1', Return l1) ->
  constructor env2 scope2 id2 props2 s2 = (s2', Return l2) ->
  (sendToCloudWatchLogs props1 = true -> sendToCloudWatchLogs props2 = true) ->
  (sendToS3 props1 = true -> sendToS3 props2 = true) ->
  length (sessionManagerEC2PolicyDocument l1) <= length (sessionManagerEC2PolicyDocument l2)
  /\ sessionManagerEC2PolicyDocument l1
     = [baseStatement]
       ++ (if sendToCloudWatchLogs props1
           then cloudWatchStatements env1 sessionLogGroupName else [])
       ++ (if sendToS3 props1 then s3Statements env1 props1 else [])
       ++ [sessionKeyStatement (keyArn (path (sessionManagerSessionCmk l1)))]
  /\ length (sessionManagerEC2PolicyDocument l1)
     = 2 + (if sendToCloudWatchLogs props1 then 2 else 0)
         + (if sendToS3 props1 then 3 else 0)
  /\ length (sessionManagerEC2PolicyDocument l2)
     = 2 + (if sendToCloudWatchLogs props2 then 2 else 0)
         + (if sendToS3 props2 then 3 else 0).
Proof.
  intros Hrun1 Hrun2 Hcw Hs3.
  apply constructor_Return in Hrun1 as [_ [Hpath1 Hdoc1 _ _ _ _ _ _]].
  apply constructor_Return in Hrun2 as [_ [_ Hdoc2 _ _ _ _ _ _]].
  rewrite Hdoc1, Hdoc2, Hpath1, !agentPolicyDocument_length.
  split; [|split; [reflexivity | split; reflexivity]].
  destruct (sendToCloudWatchLogs props1), (sendToS3 props1);
    rewrite ?(Hcw eq_refl), ?(Hs3 eq_refl);
    destruct (sendToCloudWatchLogs props2), (sendToS3 props2); cbn; lia.
Qed.

Lemma agent_policy_grows_with_destinations_witness :
  length (sessionManagerEC2PolicyDocument (Examples.returned Examples.secondRun))
  <= length (sessionManagerEC2PolicyDocument (Examples.returned Examples.firstRun)).
Proof.
  refine (proj1 (agent_policy_grows_with_destinations
                   Examples.env [] "SecondSessionManagerSettings" Examples.noDestination
                   Examples.firstRun.1 Examples.secondRun.1
                   (Examples.returned Examples.secondRun)
                   Examples.env [] "SessionManagerSettings" Examples.bothDestinations
                   Examples.stackWithKey Examples.firstRun.1
                   (Examples.returned Examples.firstRun) _ _ _ _)).
  - vm_compute. reflexivity.
  - vm_compute. reflexivity.
  - intros _. reflexivity.
  - intros _. reflexivity.
Defined.


Ltac statement_cases H :=
  repeat (apply elem_of_cons in H as [->|H]); [..|inversion H].



(** C9.  A run that returns with [sendToCloudWatchLogs] unset has registered
    the custom resource, and its [cloudWatchLogGroupName] property is the
    empty string. *)
Theorem no_cloudwatch_empty_log_group_name env scope id props s s' l :
  sendToCloudWatchLogs props = false ->
  constructor env scope id props s = (s', Return l) ->
  sessionManagerLogGroupName l = ""
  /\ exists crp deps,
       constructs s' !! loc (resource l)
       = Some ((scope ++ [id]) ++ ["Resource"], CCustomResource crp deps)
       /\ resourceType crp = "Custom::SsmSessionManagerSettings"
       /\ property "cloudWatchLogGroupName" (properties crp) = Some (JsString "").
Proof.
  intros Hcw Hrun. apply constructor_Return in Hrun as [_ Hdone].
  destruct Hdone as [_ _ Hname _ _ (tok & Hres) _ _]. rewrite Hcw in Hname.
  split; [exact Hname|].
  do 2 eexists. split; [exact Hres|]. split; [reflexivity|].
  cbn. rewrite Hname. reflexivity.
Qed.

Lemma no_cloudwatch_empty_log_group_name_witness :
  exists crp deps,
    constructs Examples.secondRun.1 !! loc (resource (Examples.returned Examples.secondRun))
    = Some (["SecondSessionManagerSettings"; "Resource"], CCustomResource crp deps)
    /\ property "cloudWatchLogGroupName" (properties crp) = Some (JsString "").
Proof.
  destruct (no_cloudwatch_empty_log_group_name Examples.env []
              "SecondSessionManagerSettings" Examples.noDestination
              Examples.firstRun.1 Examples.secondRun.1
              (Examples.returned Examples.secondRun))
    as (_ & crp & deps & Hres & _ & Hprop).
  - reflexivity.
  - vm_compute. reflexivity.
  - exists crp, deps. split; assumption.
Defined.

(** The statements of a list that allow an action, the actions being
    given. *)
Ltac filter_actions :=
  cbn [List.filter app];
  repeat match goal with
         | |- context [hasAction ?a ?st] =>
             let b := eval vm_compute in (hasAction a st) in
             change (hasAction a st) with b
         end;
  cbv iota.

(** C10.  With [sendToS3] set, a bucket name and a key ARN given, the run
    declares the agent policy, and exactly one statement of its document
    allows [s3:PutObject]: it allows [s3:PutObject] and [s3:PutObjectAcl], of
    no principal and under no condition, and its only resource is
    [arn:<partition>:s3:::<bucket>/<prefix>/*] when the key prefix is a
    non-empty string, [arn:<partition>:s3:::<bucket>/*] when the prefix is
    absent or empty.  A run that returns binds that document. *)
Theorem object_write_resource env scope id props s s' o bucket bucketKeyArn :
  constructor env scope id props s = (s', o) ->
  sendToS3 props = true ->
  s3BucketName props = Some bucket -> bucket <> "" ->
  s3BucketKeyArn props = Some bucketKeyArn -> bucketKeyArn <> "" ->
  exists ds doc,
    constructs s' = constructs s ++ ds
    /\ In ((scope ++ [id]) ++ ["SessionManagerEC2Policy"],
           CManagedPolicy doc ("SessionManagerLogging-" +:+ region env)) ds
    /\ (forall l, o = Return l -> sessionManagerEC2PolicyDocument l = doc)
    /\ List.filter (hasAction "s3:PutObject") doc
       = [ {| sid := None;
              effect := ALLOW;
              principals := [];
              actions := ["s3:PutObject"; "s3:PutObjectAcl"];
              resources :=
                [match s3KeyPrefix props with
                 | Some prefix =>
                     if decide (prefix = "")
                     then "arn:" +:+ partition env +:+ ":s3:::" +:+ bucket +:+ "/*"
                     else "arn:" +:+ partition env +:+ ":s3:::" +:+ bucket +:+ "/"
                            +:+ prefix +:+ "/*"
                 | None => "arn:" +:+ partition env +:+ ":s3:::" +:+ bucket +:+ "/*"
                 end];
              conditions := [] |} ]
    /\ List.filter (hasAction "s3:PutObjectAcl") doc
       = List.filter (hasAction "s3:PutObject") doc.
Proof.
  intros Hrun Hs3 Hbucket Hb Hkey Hk.
  assert (Hvalid : sendToS3 props = true ->
                   truthy (s3BucketKeyArn props) = true /\ truthy (s3BucketName props) = true).
  { intros _. rewrite Hbucket, Hkey. cbn.
    rewrite !bool_decide_eq_false_2 by assumption. split; reflexivity. }
  destruct (constructor_assembled _ _ _ _ _ _ _ Hrun Hvalid)
    as [_ (ds & Hds & _ & Hpol & _)].
  exists ds, (agentPolicyDocument env scope id props).
  split; [exact Hds|]. split; [exact Hpol|].
  split.
  { intros l ->. apply constructor_Return in Hrun as [_ Hdone].
    exact (done_doc _ _ _ _ _ _ _ Hdone). }
  assert (Hput : putObjectStatement env props
                 = {| sid := None;
                      effect := ALLOW;
                      principals := [];
                      actions := ["s3:PutObject"; "s3:PutObjectAcl"];
                      resources :=
                        [match s3KeyPrefix props with
                         | Some prefix =>
                             if decide (prefix = "")
                             then "arn:" +:+ partition env +:+ ":s3:::" +:+ bucket +:+ "/*"
                             else "arn:" +:+ partition env +:+ ":s3:::" +:+ bucket +:+ "/"
                                    +:+ prefix +:+ "/*"
                         | None => "arn:" +:+ partition env +:+ ":s3:::" +:+ bucket +:+ "/*"
                         end];
                      conditions := [] |}).
  { unfold putObjectStatement. rewrite Hbucket. cbn [str default].
    destruct (s3KeyPrefix props) as [prefix|]; cbn [truthy str default].
    - destruct (decide (prefix = "")) as [->|Hne].
      + reflexivity.
      + rewrite bool_decide_eq_false_2 by exact Hne. reflexivity.
    - reflexivity. }
  unfold agentPolicyDocument, cloudWatchStatements, s3Statements. rewrite Hs3.
  destruct (sendToCloudWatchLogs props); filter_actions; rewrite Hput; split; reflexivity.
Qed.

Lemma object_write_resource_witness :
  exists ds doc st,
    constructs Examples.firstRun.1 = constructs Examples.stackWithKey ++ ds
    /\ In (["SessionManagerSettings"; "SessionManagerEC2Policy"],
           CManagedPolicy doc "SessionManagerLogging-cn-north-1") ds
    /\ List.filter (hasAction "s3:PutObject") doc = [st]
    /\ resources st = ["arn:aws-cn:s3:::central-logs/session/*"].
Proof.
  destruct (object_write_resource Examples.env [] "SessionManagerSettings"
              Examples.bothDestinations Examples.stackWithKey
              Examples.firstRun.1 Examples.firstRun.2
              "central-logs" "arn:aws-cn:kms:cn-north-1:111122223333:key/1234")
    as (ds & doc & Hds & Hpol & _ & Hput & _).
  - vm_compute. reflexivity.
  - reflexivity.
  - reflexivity.
  - discriminate.
  - reflexivity.
  - discriminate.
  - exists ds, doc. eexists. split; [exact Hds|]. split; [exact Hpol|].
    split; [exact Hput | reflexivity].
Defined.
End SettingsFacts.

(** ** The settings construct: how the declarations refer to one another *)

Module SettingsWiring.
Import SsmSessionManagerSettings.
Import Wiring.
Import SettingsFacts.

Lemma declaredBy_app cs l ns ns' : declaredBy (mkStack cs ns) (mkStack (cs ++ l) ns') = l.
Proof. unfold declaredBy. cbn [constructs]. apply drop_app_length. Qed.

Ltac unfold_wiring :=
  unfold ec2RoleDeclaration, instanceProfileDeclaration, userPolicyDeclaration,
    handlerLogGroupDeclaration, logsCmkDeclaration, sessionLogGroupDeclaration,
    sessionCmkPath, sessionLogGroupName.

(** The stack had no child under the id of the handler's log group, and the
    run declared none before the lookup: the lookup cannot have succeeded. *)
Ltac not_found Hnone Hid :=
  match goal with
  | H : findIn (_ ++ _) [] _ = Some _ |- _ =>
      apply findIn_app_Some in H as [H|H]; [destruct H; exact Hnone|];
      repeat (apply Exists_cons in H as [H|H];
              [cbn [fst app] in H;
               first [ destruct (Hid H)
                     | destruct (path_child_not_root _ _ _ _ _ eq_refl H)
                     | vm_compute in H; discriminate H ] |]);
      inversion H
  end.

(** Of the declarations of the run, the handler's log group alone is a log
    group under its id. *)
Ltac only_handler :=
  unfold isHandlerLogGroup; cbn [List.filter isLogGroup snd fst andb];
  rewrite ?(bool_decide_eq_false_2 (_ ++ [_] = [_]))
    by (apply (path_child_not_root _ _ _ _ _ eq_refl));
  rewrite bool_decide_eq_true_2 by reflexivity;
  reflexivity.

Ltac wired :=
  constructor; unfold_wiring; flags;
  cbn [constructs this sessionManagerEC2Role sessionManagerEC2Policy provider resource
         logGroup SsmSessionManagerSettings.id loc path];
  rewrite ?declaredBy_app;
  first
    [ reflexivity
    | split; reflexivity
    | split; [reflexivity | rewrite lookup_app_add; reflexivity]
    | rewrite lookup_app_add; reflexivity
    | solve [pick]
    | intros ?; first [discriminate | split; rewrite lookup_app_add; reflexivity]
    | let Hnone := fresh "Hnone" in
      let Hid := fresh "Hid" in
      intros Hnone Hid;
      first [ rewrite lookup_app_add; reflexivity
            | not_found Hnone Hid
            | only_handler ] ].

Lemma constructor_wired env scope id props s s' o :
  constructor env scope id props s = (s', o) ->
  (nagSuppressions s' = nagSuppressions s
   /\ exists ds, constructs s' = constructs s ++ ds)
  /\ forall l, o = Return l -> Wired env scope id props s s' l.
Proof.
  destruct s as [cs ns].
  unfold constructor, addToResourcePolicy, addDependency, findChild,
    CustomResourceProvider.getOrCreateProvider, CustomResourceProvider.constructor.
  rewrite (run_from cs ns) at 1.
  destruct (sendToCloudWatchLogs props) eqn:Hcw, (sendToS3 props) eqn:Hs3;
    [ destruct (negb (truthy (s3BucketKeyArn props)) || negb (truthy (s3BucketName props))) | |
      destruct (negb (truthy (s3BucketKeyArn props)) || negb (truthy (s3BucketName props))) | ].
  all: run.
  all: unfold ret; intros [= <- <-].
  all: split; [split; [reflexivity | eexists; reflexivity]|].
  all: intros l' [= <-].
  all: wired.
Qed.

Lemma filter_isHandlerLogGroup_nil (ds : list (Path * Construct)) :
  Forall (fun d => ~ (d.1 = [handlerLogGroupId] /\ isLogGroup d.2 = true)) ds ->
  List.filter isHandlerLogGroup ds = [].
Proof.
  induction 1 as [|d ds Hd _ IH]; [reflexivity|]. cbn [List.filter].
  rewrite IH. unfold isHandlerLogGroup.
  destruct (isLogGroup d.2) eqn:Hlg; [|reflexivity]. cbn [andb].
  rewrite bool_decide_eq_false_2; [reflexivity|]. intros Hp. apply Hd. split; [exact Hp | first [reflexivity | assumption]].
Qed.

Lemma filter_isHandlerLogGroup_absent (cs : list (Path * Construct)) :
  findIn cs [] handlerLogGroupId = None -> List.filter isHandlerLogGroup cs = [].
Proof.
  intros Hnone. apply filter_isHandlerLogGroup_nil.
  apply findIn_None in Hnone. eapply List.Forall_impl; [|exact Hnone].
  intros d Hd [Hp _]. exact (Hd Hp).
Qed.

(** C7.  When the settings construct is instantiated a second time in a
    stack, the handler's log group of the second run is the object of the
    first: the child that is found under the fixed id directly under the
    stack, before and after the second run.  The second run declares no log
    group under that id, leaves the declaration as it was, and its custom
    resource depends on it.  When the stack held no child under that id
    before the first run, and the first construct is not itself given that
    id, the shared object is a log group that the first run has declared,
    and it is the only log group under that id in the stack after both
    runs. *)
Theorem handler_log_group_shared
    env scope1 id1 props1 scope2 id2 props2 s s1 s2 l1 l2 :
  constructor env scope1 id1 props1 s = (s1, Return l1) ->
  constructor env scope2 id2 props2 s1 = (s2, Return l2) ->
  logGroup l2 = logGroup l1
  /\ path (logGroup l1) = [handlerLogGroupId]
  /\ findIn (constructs s1) [] handlerLogGroupId = Some (logGroup l1)
  /\ findIn (constructs s2) [] handlerLogGroupId = Some (logGroup l1)
  /\ List.filter isHandlerLogGroup (declaredBy s1 s2) = []
  /\ constructs s2 !! loc (logGroup l1) = constructs s1 !! loc (logGroup l1)
  /\ (exists crp,
       constructs s2 !! loc (resource l2)
       = Some ((scope2 ++ [id2]) ++ ["Resource"], CCustomResource crp [loc (logGroup l1)]))
  /\ (findIn (constructs s) [] handlerLogGroupId = None ->
      scope1 ++ [id1] <> [handlerLogGroupId] ->
      exists lgp,
        constructs s2 !! loc (logGroup l2) = Some ([handlerLogGroupId], CLogGroup lgp)
        /\ List.filter isHandlerLogGroup (constructs s2)
           = [([handlerLogGroupId], CLogGroup lgp)]
        /\ length (constructs s) <= loc (logGroup l2) < length (constructs s1)).
Proof.
  intros Hrun1 Hrun2.
  destruct (constructor_wired _ _ _ _ _ _ _ Hrun1) as [[_ (ds1 & Hds1)] Hw].
  specialize (Hw l1 eq_refl).
  apply constructor_Return in Hrun1 as [_ Hdone1].
  apply constructor_Return in Hrun2 as [Has2 Hdone2].
  pose proof (done_logGroup _ _ _ _ _ _ _ Hdone1) as Hlg1.
  pose proof (done_logGroup _ _ _ _ _ _ _ Hdone2) as Hlg2.
  destruct (done_found _ _ _ _ _ _ _ Hdone2 _ Hlg1) as [Hsame Hfresh].
  destruct Has2 as [_ (ds2 & Hds2 & _)].
  destruct (findIn_Some _ _ _ _ Hlg1) as (Hpath & (c & Hc) & _).
  assert (Hds2' : declaredBy s1 s2 = ds2).
  { unfold declaredBy. rewrite Hds2. apply drop_app_length. }
  assert (Hnew : List.filter isHandlerLogGroup ds2 = [])
    by exact (filter_isHandlerLogGroup_nil _ (Hfresh _ Hds2)).
  assert (Hkeep : constructs s2 !! loc (logGroup l1) = constructs s1 !! loc (logGroup l1)).
  { rewrite Hds2. apply lookup_app_l. eapply lookup_lt_Some, Hc. }
  split; [exact Hsame|]. split; [exact Hpath|]. split; [exact Hlg1|].
  split; [rewrite <- Hsame; exact Hlg2|].
  split; [rewrite Hds2'; exact Hnew|].
  split; [exact Hkeep|].
  split.
  { destruct (done_resource _ _ _ _ _ _ _ Hdone2) as (tok & Hres).
    rewrite Hsame in Hres. eauto. }
  intros Hnone Hid.
  pose proof (wired_handler _ _ _ _ _ _ _ Hw Hnone Hid) as Hlg.
  pose proof (wired_handler_only _ _ _ _ _ _ _ Hw Hnone Hid) as Honly.
  unfold handlerLogGroupDeclaration in Hlg, Honly.
  eexists. split; [rewrite Hsame, Hkeep; exact Hlg|].
  split.
  - rewrite Hds2, Hds1, !List.filter_app, Hnew.
    rewrite (filter_isHandlerLogGroup_absent _ Hnone).
    unfold declaredBy in Honly. rewrite Hds1, drop_app_length in Honly.
    rewrite Honly. reflexivity.
  - rewrite Hsame. split; [|eapply lookup_lt_Some, Hlg].
    destruct (decide (length (constructs s) <= loc (logGroup l1))) as [Hle|Hlt]; [exact Hle|].
    exfalso. rewrite Hds1, lookup_app_l in Hlg by lia.
    apply findIn_None in Hnone. rewrite Forall_lookup in Hnone.
    apply (Hnone _ _ Hlg). reflexivity.
Qed.

Lemma handler_log_group_shared_witness :
  logGroup (Examples.returned Examples.secondRun)
  = logGroup (Examples.returned Examples.firstRun)
  /\ exists lgp,
       constructs Examples.secondRun.1 !! loc (logGroup (Examples.returned Examples.secondRun))
       = Some ([handlerLogGroupId], CLogGroup lgp)
       /\ List.filter isHandlerLogGroup (constructs Examples.secondRun.1)
          = [([handlerLogGroupId], CLogGroup lgp)].
Proof.
  destruct (handler_log_group_shared Examples.env
              [] "SessionManagerSettings" Examples.bothDestinations
              [] "SecondSessionManagerSettings" Examples.noDestination
              Examples.stackWithKey Examples.firstRun.1 Examples.secondRun.1
              (Examples.returned Examples.firstRun)
              (Examples.returned Examples.secondRun))
    as (Hsame & _ & _ & _ & _ & _ & _ & Hlg).
  - vm_compute. reflexivity.
  - vm_compute. reflexivity.
  - split; [exact Hsame|].
    destruct Hlg as (lgp & Hlook & Honly & _).
    + vm_compute. reflexivity.
    + discriminate.
    + exists lgp. split; assumption.
Defined.
End SettingsWiring.

(** ** More of the key stack *)

Module KeyStackMore.
Import KeyStack.
Import KeyStackFacts.

Lemma append_assoc (a b c : string) : (a +:+ b) +:+ c = a +:+ (b +:+ c).
Proof.
  induction a as [|x a IH]; [reflexivity|].
  change (String x ((a +:+ b) +:+ c) = String x (a +:+ (b +:+ c))).
  rewrite IH. reflexivity.
Qed.

(** In a stack whose name is its path in the tree, the suppression path is
    the path of the role's resource. *)
Lemma role_path_matches env cs c :
  nodePath env = stackName env ->
  stackName env <> "" ->
  String.prefix "/" (stackName env) = false ->
  In (crossAccountRolePath, c) cs ->
  suppressionPathMatches env cs (suppressionPath env) = true.
Proof.
  intros Hpath Hne Hslash Hin. unfold suppressionPathMatches, suppressionPath.
  apply existsb_exists. exists crossAccountRolePath. split.
  - right. apply in_map_iff. exists (crossAccountRolePath, c). split; [reflexivity | exact Hin].
  - apply orb_true_iff. right. apply bool_decide_eq_true.
    unfold nodePathOf, crossAccountRolePath, stripLeadingSlash. rewrite Hpath.
    destruct (stackName env) as [|x r]; [destruct Hne; reflexivity|].
    cbn [String.concat]. rewrite !append_assoc.
    change (String x r +:+ "/" +:+ "CrossAccountAcceleratorSsmParamAccessRole" +:+ "/Resource")
      with (String x (r +:+ "/CrossAccountAcceleratorSsmParamAccessRole/Resource")).
    change (String x r +:+ "/CrossAccountAcceleratorSsmParamAccessRole/Resource")
      with (String x (r +:+ "/CrossAccountAcceleratorSsmParamAccessRole/Resource")).
    cbn [String.prefix] in Hslash |- *.
    destruct (Ascii.ascii_dec _ x); [destruct r; discriminate Hslash | reflexivity].
Qed.

(** A stack deployed under a name that is not its path: the role is
    declared, the suppression is refused, and none is registered. *)
Lemma renamed_stack_unmatched :
  Scenarios.renamedRun.2
  = Throw (unmatchedPathError
             "AWSAccelerator-KeyStack-111122223333-cn-north-1/CrossAccountAcceleratorSsmParamAccessRole/Resource")
  /\ nagSuppressions Scenarios.renamedRun.1 = []
  /\ List.filter (fun d => isRole d.2) (constructs Scenarios.renamedRun.1)
     = [roleDeclaration Scenarios.renamedEnv Examples.organizationProps].
Proof. vm_compute. repeat split; reflexivity. Qed.

(** X1.  However the run ends, it has declared the cross-account role exactly
    when the stack is in the home region, organization mode is enabled and
    the trust principal can be built, that is, unless the composite of an
    empty account list is asked for.  The suppression for the role's wildcard
    permissions is registered, under the path of the role's resource, by the
    runs that return with the role and by no other: a run that throws leaves
    the suppressions as they were. *)
Theorem cross_account_role_iff_home_organization env props s :
  (Exists (fun d => isRole d.2 = true) (declaredBy s (constructor env props s).1)
   <-> region env = globalConfig_homeRegion props
       /\ organizationConfig_enable props = true
       /\ ~ (props_partition props = "aws-cn" /\ accountIdsOf props = Some []))
  /\ (forall l, (constructor env props s).2 = Return l ->
        (is_Some (crossAccountRole l)
         <-> region env = globalConfig_homeRegion props
             /\ organizationConfig_enable props = true))
  /\ nagSuppressions (constructor env props s).1
     = nagSuppressions s
       ++ (if bool_decide (region env = globalConfig_homeRegion props)
              && organizationConfig_enable props
              && returns (constructor env props s).2
           then [(stackName env +:+ "/CrossAccountAcceleratorSsmParamAccessRole/Resource",
                  [ssmParameterSuppression])]
           else []).
Proof.
  split; [|split].
  - assert (Hiff : roleRequested env props && negb (emptyCompositeRequested props) = true
                   <-> region env = globalConfig_homeRegion props
                       /\ organizationConfig_enable props = true
                       /\ ~ (props_partition props = "aws-cn" /\ accountIdsOf props = Some [])).
    { rewrite andb_true_iff, negb_true_iff, roleRequested_true,
        <- emptyCompositeRequested_true.
      destruct (emptyCompositeRequested props); intuition congruence. }
    rewrite <- Hiff, run_declared. unfold baseDeclarations.
    destruct (roleRequested env props && negb (emptyCompositeRequested props)).
    + split; [reflexivity|]. intros _.
      destruct (organizationConfig_enable props); cbn [app];
        repeat first [apply Exists_cons_hd; reflexivity | apply Exists_cons_tl].
    + split; [|discriminate]. intros Hs. exfalso.
      destruct (organizationConfig_enable props); cbn [app] in Hs;
        repeat (apply Exists_cons in Hs as [Hs|Hs]; [discriminate Hs|]); inversion Hs.
  - intros l Hl. destruct (constructor env props s) as [s' o] eqn:Hrun.
    cbn in Hl. subst o. apply run_Return in Hrun as (_ & _ & Hrole & _).
    rewrite Hrole, <- roleRequested_true.
    destruct (roleRequested env props); split; eauto; try discriminate.
    intros [? [=]].
  - apply run_suppressions.
Qed.

(** X2.  In every configuration, and however the run ends, the stack
    publishes the ARN of the key it has declared: exactly one string
    parameter is declared, its name is the class constant
    [ACCELERATOR_KEY_ARN_PARAMETER_NAME], its value the ARN of the
    [AcceleratorKey] construct, the one key that is declared, with rotation
    enabled and retained on removal. *)
Theorem key_arn_parameter_published env props s :
  exists pol,
    List.filter (fun d => isStringParameter d.2) (declaredBy s (constructor env props s).1)
    = [(["AcceleratorKmsArnParameter"],
        CStringParameter ACCELERATOR_KEY_ARN_PARAMETER_NAME (keyArn ["AcceleratorKey"]))]
    /\ List.filter (fun d => isKey d.2) (declaredBy s (constructor env props s).1)
       = [(["AcceleratorKey"],
           CKey {| alias := "alias/accelerator/kms/key";
                   description := "AWS Accelerator Kms Key";
                   enableKeyRotation := true;
                   removalPolicy := Some RETAIN |} pol)]
    /\ (forall l, (constructor env props s).2 = Return l ->
          path (key l) = ["AcceleratorKey"]
          /\ constructs (constructor env props s).1 !! loc (key l)
             = Some (["AcceleratorKey"], CKey acceleratorKeyProps pol)).
Proof.
  exists (addedStatements env props). rewrite run_declared. unfold baseDeclarations.
  split; [|split].
  - destruct (organizationConfig_enable props),
      (roleRequested env props && negb (emptyCompositeRequested props)); reflexivity.
  - destruct (organizationConfig_enable props),
      (roleRequested env props && negb (emptyCompositeRequested props)); reflexivity.
  - intros l Hl. pose proof (run_key env props s) as Hkey.
    destruct (constructor env props s) as [s' o] eqn:Hrun.
    cbn in Hl. subst o. apply run_Return in Hrun as (_ & -> & _).
    split; [reflexivity | exact Hkey].
Qed.



(** X4.  With organization mode enabled, and however the run ends, the first
    statement the constructor adds to the resource policy of the key is the
    accelerator-role statement: its principals are the configured account
    principals (none at all when the account list is absent), it allows the
    key-use actions on every resource, and it is conditioned on the caller
    being an accelerator role of the stack's partition.  Every statement
    added after it names service principals only. *)
Theorem accelerator_role_statement_first env props s :
  organizationConfig_enable props = true ->
  exists st pol,
    constructs (constructor env props s).1 !! (length (constructs s) + 1)
    = Some (["AcceleratorKey"], CKey acceleratorKeyProps (st :: pol))
    /\ principals st = configuredAccountPrincipals props
    /\ (accountIdsOf props = None -> principals st = [])
    /\ effect st = ALLOW
    /\ actions st
       = ["kms:Encrypt"; "kms:Decrypt"; "kms:ReEncrypt*"; "kms:GenerateDataKey*";
          "kms:DescribeKey"]
    /\ resources st = ["*"]
    /\ conditions st
       = [("ArnLike",
           [("aws:PrincipalARN",
             CondList ["arn:" +:+ partition env +:+ ":iam::*:role/AWSAccelerator-*"])])]
    /\ Forall (fun st' => Forall (fun p => isServicePrincipal p = true) (principals st')) pol.
Proof.
  intros Horg. pose proof (run_key env props s) as Hkey.
  unfold keyLoc, addedStatements in Hkey. rewrite Horg in Hkey. cbn [app] in Hkey.
  do 2 eexists. split; [exact Hkey|].
  cbn [principals acceleratorRoleStatement]. unfold configuredAccountPrincipals.
  split; [destruct (accountIdsOf props); reflexivity|].
  split; [intros ->; reflexivity|].
  do 4 (split; [reflexivity|]).
  unfold allowedServicePrincipals.
  destruct (macie_enable props), (guardduty_enable props); repeat constructor.
Qed.

Lemma accelerator_role_statement_first_witness :
  exists st pol,
    constructs Scenarios.organizationRun.1 !! 1
    = Some (["AcceleratorKey"], CKey acceleratorKeyProps (st :: pol))
    /\ principals st = [AccountPrincipal "111111111111"; AccountPrincipal "222222222222"].
Proof.
  destruct (accelerator_role_statement_first Examples.env Examples.organizationProps
              Examples.emptyStack eq_refl)
    as (st & pol & Hkey & Hp & _).
  exists st, pol. split; [exact Hkey | exact Hp].
Defined.

(** X5.  In every configuration and in every partition, and however the run
    ends, the statements the constructor adds to the resource policy of the
    key hold the statement for the fixed logging principal
    [logs.amazonaws.com.cn], without a condition; the constructor adds four
    statements, plus one for organization mode, one for Macie and one for
    GuardDuty when they are enabled. *)
Theorem key_policy_statement_count env props s :
  exists kp pol st,
    constructs (constructor env props s).1 !! keyLoc props s
    = Some (["AcceleratorKey"], CKey kp pol)
    /\ length pol
       = (if organizationConfig_enable props then 1 else 0) + 4
         + (if macie_enable props then 1 else 0)
         + (if guardduty_enable props then 1 else 0)
    /\ st ∈ pol
    /\ sid st = Some "Allow Cloudwatch logs to use the encryption key"
    /\ principals st = [ServicePrincipal "logs.amazonaws.com.cn"]
    /\ actions st
       = ["kms:Encrypt*"; "kms:Decrypt*"; "kms:ReEncrypt*"; "kms:GenerateDataKey*";
          "kms:Describe*"]
    /\ resources st = ["*"]
    /\ conditions st = [].
Proof.
  do 2 eexists. exists cloudwatchLogsStatement.
  split; [apply run_key|].
  unfold addedStatements. split.
  { unfold allowedServicePrincipals.
    destruct (organizationConfig_enable props), (macie_enable props),
      (guardduty_enable props); reflexivity. }
  split; [|repeat split; reflexivity].
  apply elem_of_app. right. constructor.
Qed.

(** X6.  However the run ends, the key stack only appends: every construct
    the stack held is still there, at its location and unchanged; the run
    adds the key and the parameter, the organization construct in
    organization mode, and the role in the home region of an organization
    when its trust principal can be built, in that order.  A run throws in
    the home region of an organization only: for the composite of an empty
    account list, or for a suppression path that matches no construct of the
    stack.  In a stack whose name is its path in the construct tree the
    empty composite is the only failure. *)
Theorem key_stack_appends env props s :
  (forall i d, constructs s !! i = Some d ->
     constructs (constructor env props s).1 !! i = Some d)
  /\ (declaredBy s (constructor env props s).1).*1
     = (if organizationConfig_enable props then [["Organization"]] else [])
       ++ [["AcceleratorKey"]; ["AcceleratorKmsArnParameter"]]
       ++ (if bool_decide (region env = globalConfig_homeRegion props)
              && organizationConfig_enable props
              && negb (emptyCompositeRequested props)
           then [["CrossAccountAcceleratorSsmParamAccessRole"]] else [])
  /\ nagSuppressions s `prefix_of` nagSuppressions (constructor env props s).1
  /\ (forall e, (constructor env props s).2 = Throw e ->
        region env = globalConfig_homeRegion props
        /\ organizationConfig_enable props = true
        /\ (e = emptyCompositeError
            /\ props_partition props = "aws-cn" /\ accountIdsOf props = Some []
            \/ e = unmatchedPathError
                     (stackName env +:+ "/CrossAccountAcceleratorSsmParamAccessRole/Resource")
               /\ suppressionPathMatches env (constructs (constructor env props s).1)
                    (stackName env +:+ "/CrossAccountAcceleratorSsmParamAccessRole/Resource")
                  = false))
  /\ (nodePath env = stackName env ->
      stackName env <> "" ->
      String.prefix "/" (stackName env) = false ->
      forall e, (constructor env props s).2 = Throw e -> e = emptyCompositeError).
Proof.
  assert (Hthrow : forall e, (constructor env props s).2 = Throw e ->
            roleRequested env props = true
            /\ (e = emptyCompositeError /\ emptyCompositeRequested props = true
                \/ e = unmatchedPathError (suppressionPath env)
                   /\ suppressionPathMatches env (constructs (constructor env props s).1)
                        (suppressionPath env) = false
                   /\ In (roleDeclaration env props) (constructs (constructor env props s).1))).
  { intros e. rewrite constructor_run. unfold closedForm.
    destruct (roleRequested env props); [|discriminate].
    destruct (emptyCompositeRequested props);
      [intros [= <-]; split; [reflexivity|]; left; split; reflexivity|].
    destruct (suppressionPathMatches _ _ _) eqn:Hm; [discriminate|].
    intros [= <-]. split; [reflexivity|]. right. cbn [fst constructs].
    split; [reflexivity|]. split; [exact Hm|].
    apply in_or_app. right. apply in_or_app. right. left. reflexivity. }
  split; [|split; [|split; [|split]]].
  - intros i d Hd. rewrite run_constructs. apply lookup_app_l_Some. exact Hd.
  - rewrite run_declared. unfold baseDeclarations, roleRequested.
    destruct (organizationConfig_enable props),
      (bool_decide (region env = globalConfig_homeRegion props)),
      (emptyCompositeRequested props); reflexivity.
  - rewrite run_suppressions. eexists. reflexivity.
  - intros e He. apply Hthrow in He as [Hreq He].
    apply roleRequested_true in Hreq as [Hhome Horg].
    split; [exact Hhome|]. split; [exact Horg|].
    destruct He as [[-> He]|(-> & Hm & _)].
    + left. split; [reflexivity|]. apply emptyCompositeRequested_true. exact He.
    + right. split; [reflexivity | exact Hm].
  - intros Hpath Hne Hslash e He. apply Hthrow in He as [_ [[-> _]|(_ & Hm & Hin)]];
      [reflexivity|].
    rewrite (role_path_matches env _ _ Hpath Hne Hslash Hin) in Hm. discriminate Hm.
Qed.
End KeyStackMore.

(** ** More of the settings construct *)

Module SettingsMore.
Import SsmSessionManagerSettings.
Import Wiring.
Import SettingsFacts.
Import SettingsWiring.

(** X7.  In a scope where the id of the construct is free, a run ends with
    the validation error exactly when the S3 destination is requested and the
    bucket name or the key ARN is missing; an empty string counts as missing,
    and with the S3 destination switched off neither value is looked at. *)
Theorem validation_error_iff env scope id props s :
  findIn (constructs s) scope id = None ->
  ((constructor env scope id props s).2 = Throw validationError
   <-> sendToS3 props = true
       /\ (truthy (s3BucketKeyArn props) = false \/ truthy (s3BucketName props) = false))
  /\ (sendToS3 props = true ->
      s3BucketName props = Some "" \/ s3BucketKeyArn props = Some "" ->
      (constructor env scope id props s).2 = Throw validationError)
  /\ (sendToS3 props = false ->
      (constructor env scope id props s).2 <> Throw validationError).
Proof.
  intros _.
  destruct (constructor env scope id props s) as [s' o] eqn:Hrun.
  apply constructor_ends in Hrun. cbn [snd].
  assert (Hiff : o = Throw validationError
                 <-> sendToS3 props = true
                     /\ (truthy (s3BucketKeyArn props) = false
                         \/ truthy (s3BucketName props) = false)).
  { destruct o as [l|e]; cbn in Hrun.
    - destruct Hrun as [[Hvalid _] _]. split; [discriminate|].
      intros [Hs3 Hmiss]. destruct (Hvalid Hs3) as [Hk Hb]. rewrite Hk, Hb in Hmiss.
      destruct Hmiss; discriminate.
    - destruct Hrun as [(-> & Hs3 & Hmiss)|[(-> & [Hvalid _] & _)|(-> & [Hvalid _] & _)]].
      + tauto.
      + split; [discriminate|].
        intros [Hs3 Hmiss]. destruct (Hvalid Hs3) as [Hk Hb]. rewrite Hk, Hb in Hmiss.
        destruct Hmiss; discriminate.
      + split; [intros [= He]; vm_compute in He; discriminate He|].
        intros [Hs3 Hmiss]. destruct (Hvalid Hs3) as [Hk Hb]. rewrite Hk, Hb in Hmiss.
        destruct Hmiss; discriminate. }
  split; [exact Hiff|]. split.
  - intros Hs3 Hempty. apply Hiff. split; [exact Hs3|].
    destruct Hempty as [-> | ->]; [right | left]; reflexivity.
  - intros Hs3 Ho. apply Hiff in Ho as [Hs3' _]. congruence.
Qed.

Lemma validation_error_iff_witness :
  (constructor Examples.env [] "SessionManagerSettings" Scenarios.bucketEmpty
     Examples.stackWithKey).2
  = Throw validationError.
Proof.
  destruct (validation_error_iff Examples.env [] "SessionManagerSettings"
              Scenarios.bucketEmpty Examples.stackWithKey)
    as (_ & Hempty & _).
  - vm_compute. reflexivity.
  - apply Hempty; [reflexivity | left; reflexivity].
Defined.

(** X8.  The first instantiation in a stack.  In a scope where the id of the
    construct is free, on a stack that holds neither the custom-resource
    provider nor the handler's log group, and under an id that is neither of
    theirs, the run returns exactly when the S3 settings are valid and the
    retention given for the handler's log group is positive.  It fails with
    the validation error when the S3 settings are not valid, and with the
    error of the log group when they are valid and the retention is not
    positive; it fails in no other way. *)
Theorem returns_iff_valid env scope id props s :
  findIn (constructs s) scope id = None ->
  findIn (constructs s) [] providerId = None ->
  findIn (constructs s) [] handlerLogGroupId = None ->
  scope ++ [id] <> [providerId] ->
  scope ++ [id] <> [handlerLogGroupId] ->
  ((exists s' l, constructor env scope id props s = (s', Return l))
   <-> (sendToS3 props = true ->
        truthy (s3BucketKeyArn props) = true /\ truthy (s3BucketName props) = true)
       /\ (0 < logRetentionInDays props)%Z)
  /\ (forall e, (constructor env scope id props s).2 = Throw e ->
        e = mkError "Bucket Key Arn and Bucket Name must be provided"
        /\ sendToS3 props = true
        /\ (truthy (s3BucketKeyArn props) = false \/ truthy (s3BucketName props) = false)
        \/ e = mkError ("retentionInDays must be positive, got "
                          +:+ pretty.pretty (logRetentionInDays props))
           /\ (logRetentionInDays props <= 0)%Z
           /\ (sendToS3 props = true ->
               truthy (s3BucketKeyArn props) = true /\ truthy (s3BucketName props) = true)).
Proof.
  intros _ Hfresh Hnone Hid Hlid.
  assert (Hnot : ~ handlerLogGroupThere scope id s)
    by (intros [H|H]; [exact (H Hnone) | exact (Hlid H)]).
  split; [split|].
  - intros (s' & l & Hrun). apply constructor_ends in Hrun. cbn in Hrun.
    destruct Hrun as ([Hvalid _] & _ & [Hthere|Hpos]); [destruct (Hnot Hthere)|].
    split; assumption.
  - intros [Hvalid Hpos]. apply constructor_completes; assumption.
  - intros e He.
    destruct (constructor env scope id props s) as [s' o] eqn:Hrun.
    cbn in He. subst o. apply constructor_ends in Hrun. cbn in Hrun.
    destruct Hrun as [(-> & Hs3 & Hmiss)|[(_ & _ & [Hp|Hp])|(-> & [Hvalid _] & Hle & _)]].
    + left. split; [reflexivity|]. split; assumption.
    + destruct (Hp Hfresh).
    + destruct (Hid Hp).
    + right. split; [reflexivity|]. split; assumption.
Qed.

Lemma returns_iff_valid_witness :
  ~ (exists s' l,
       constructor Examples.env [] "SessionManagerSettings" Scenarios.zeroRetention
         Examples.stackWithKey = (s', Return l))
  /\ (constructor Examples.env [] "SessionManagerSettings" Scenarios.zeroRetention
        Examples.stackWithKey).2
     = Throw (mkError "retentionInDays must be positive, got 0").
Proof.
  destruct (returns_iff_valid Examples.env [] "SessionManagerSettings"
              Scenarios.zeroRetention Examples.stackWithKey)
    as [Hiff _].
  - vm_compute. reflexivity.
  - vm_compute. reflexivity.
  - vm_compute. reflexivity.
  - discriminate.
  - discriminate.
  - split; [|vm_compute; reflexivity].
    intros Hret. apply Hiff in Hret as [_ Hpos]. discriminate Hpos.
Defined.

(** X9.  Whatever the configuration and however the run ends, it only appends
    to the stack: every construct declared before is still there, at its
    location and unchanged, and the registered suppressions are untouched. *)
Theorem run_only_appends env scope id props s :
  (forall i d, constructs s !! i = Some d ->
     constructs (constructor env scope id props s).1 !! i = Some d)
  /\ length (constructs s) <= length (constructs (constructor env scope id props s).1)
  /\ nagSuppressions (constructor env scope id props s).1 = nagSuppressions s.
Proof.
  destruct (constructor env scope id props s) as [s' o] eqn:Hrun.
  apply constructor_wired in Hrun as [[Hns (ds & Hds)] _]. cbn [fst].
  rewrite Hds. split; [|split; [rewrite length_app; lia | exact Hns]].
  intros i d Hd. apply lookup_app_l_Some. exact Hd.
Qed.

(** X10.  In a run that returns, the instance role is assumed by the EC2
    service and its only managed policy is the agent policy declared by the
    same run; the instance profile wraps exactly that role, by the role's
    name; its own name is [SessionManagerEc2Role-<region>]. *)
Theorem instance_role_wiring env scope id props s s' l :
  constructor env scope id props s = (s', Return l) ->
  exists rp,
    constructs s' !! loc (sessionManagerEC2Role l)
    = Some ((scope ++ [id]) ++ ["SessionManagerEC2Role"], CRole rp)
    /\ assumedBy rp = ServicePrincipal "ec2.amazonaws.com.cn"
    /\ roleName rp = "SessionManagerEC2Role-" +:+ region env
    /\ inlinePolicies rp = []
    /\ managedPolicies rp = [loc (sessionManagerEC2Policy l)]
    /\ constructs s' !! loc (sessionManagerEC2Policy l)
       = Some ((scope ++ [id]) ++ ["SessionManagerEC2Policy"],
               CManagedPolicy (sessionManagerEC2PolicyDocument l)
                              ("SessionManagerLogging-" +:+ region env))
    /\ In ((scope ++ [id]) ++ ["SessionManagerEC2InstanceProfile"],
           CCfnInstanceProfile
             [token ((scope ++ [id]) ++ ["SessionManagerEC2Role"]) "roleName"]
             ("SessionManagerEc2Role-" +:+ region env))
          (declaredBy s s').
Proof.
  intros Hrun.
  destruct (constructor_wired _ _ _ _ _ _ _ Hrun) as [_ Hw].
  specialize (Hw l eq_refl). destruct Hw as [_ Hrole Hprofile _ _ _ _ _ _].
  apply constructor_Return in Hrun as [_ [_ Hdoc _ _ Hpol _ _ _]].
  eexists. split; [exact Hrole|]. do 4 (split; [reflexivity|]).
  split; [rewrite Hpol, Hdoc; reflexivity | exact Hprofile].
Qed.

Lemma instance_role_wiring_witness :
  exists rp,
    constructs Examples.firstRun.1 !! loc (sessionManagerEC2Role (Examples.returned Examples.firstRun))
    = Some (["SessionManagerSettings"; "SessionManagerEC2Role"], CRole rp)
    /\ managedPolicies rp = [loc (sessionManagerEC2Policy (Examples.returned Examples.firstRun))].
Proof.
  destruct (instance_role_wiring Examples.env [] "SessionManagerSettings"
              Examples.bothDestinations Examples.stackWithKey Examples.firstRun.1
              (Examples.returned Examples.firstRun))
    as (rp & Hrole & _ & _ & _ & Hmp & _).
  - vm_compute. reflexivity.
  - exists rp. split; assumption.
Defined.

(** X11.  A run that returns declares the user policy: one statement that
    allows decrypting and generating data keys with the session key.  In the
    agent policy the statement for the session key allows decrypting only:
    the one statement of the agent policy that allows generating data keys is
    the bucket-key statement of the S3 block.  The custom resource is handed
    the id of the same session key. *)
Theorem user_policy_on_session_key env scope id props s s' l :
  constructor env scope id props s = (s', Return l) ->
  exists st crp deps,
    In ((scope ++ [id]) ++ ["SessionManagerUserKMSPolicy"],
        CManagedPolicy [st] ("SessionManagerUserKMSPolicy-" +:+ region env))
       (declaredBy s s')
    /\ effect st = ALLOW
    /\ actions st = ["kms:Decrypt"; "kms:GenerateDataKey"]
    /\ resources st = [keyArn (path (sessionManagerSessionCmk l))]
    /\ (forall st', st' ∈ sessionManagerEC2PolicyDocument l ->
          hasAction "kms:GenerateDataKey" st' = true ->
          sendToS3 props = true /\ st' = bucketKeyStatement props)
    /\ (exists doc,
          sessionManagerEC2PolicyDocument l
          = doc ++ [sessionKeyStatement (keyArn (path (sessionManagerSessionCmk l)))])
    /\ constructs s' !! loc (resource l)
       = Some ((scope ++ [id]) ++ ["Resource"], CCustomResource crp deps)
    /\ property "kmsKeyId" (properties crp)
       = Some (JsString (token (path (sessionManagerSessionCmk l)) "keyId")).
Proof.
  intros Hrun.
  destruct (constructor_wired _ _ _ _ _ _ _ Hrun) as [_ Hw].
  specialize (Hw l eq_refl). destruct Hw as [_ _ _ Huser _ _ _ _ _].
  apply constructor_Return in Hrun as [_ [Hpath Hdoc _ _ _ (tok & Hres) _ _]].
  do 3 eexists. split; [exact Huser|].
  do 2 (split; [reflexivity|]).
  split; [rewrite Hpath; reflexivity|].
  split; [|split; [|split; [exact Hres | reflexivity]]].
  - intros st' Hst' Hact. rewrite Hdoc in Hst'.
    unfold agentPolicyDocument, cloudWatchStatements, s3Statements in Hst'.
    destruct (sendToCloudWatchLogs props), (sendToS3 props); cbn [app] in Hst';
      statement_cases Hst';
      first [split; reflexivity | vm_compute in Hact; discriminate Hact].
  - rewrite Hdoc, Hpath. unfold agentPolicyDocument.
    eexists. rewrite !(assoc_L (++)). reflexivity.
Qed.

Lemma user_policy_on_session_key_witness :
  exists st,
    In (["SessionManagerSettings"; "SessionManagerUserKMSPolicy"],
        CManagedPolicy [st] "SessionManagerUserKMSPolicy-cn-north-1")
       (declaredBy Examples.stackWithKey Examples.firstRun.1)
    /\ actions st = ["kms:Decrypt"; "kms:GenerateDataKey"].
Proof.
  destruct (user_policy_on_session_key Examples.env [] "SessionManagerSettings"
              Examples.bothDestinations Examples.stackWithKey Examples.firstRun.1
              (Examples.returned Examples.firstRun))
    as (st & crp & deps & Hin & _ & Hact & _).
  - vm_compute. reflexivity.
  - exists st. split; assumption.
Defined.

Lemma declaredBy_eq s s' ds : constructs s' = constructs s ++ ds -> declaredBy s s' = ds.
Proof. intros H. unfold declaredBy. rewrite H. apply drop_app_length. Qed.

(** X12.  With the S3 destination switched off, the agent policy of a run
    that returns allows no S3 action at all, even when a bucket is
    configured; the custom resource is still handed the bucket name and the
    key prefix as configured ([undefined] when absent), with
    [s3EncryptionEnabled] false.  The bucket's key ARN is never among the
    properties. *)
Theorem s3_disabled_pass_through env scope id props s s' l :
  sendToS3 props = false ->
  constructor env scope id props s = (s', Return l) ->
  (forall st a, st ∈ sessionManagerEC2PolicyDocument l -> a ∈ actions st ->
     String.prefix "s3:" a = false)
  /\ exists crp deps,
       constructs s' !! loc (resource l)
       = Some ((scope ++ [id]) ++ ["Resource"], CCustomResource crp deps)
       /\ property "s3EncryptionEnabled" (properties crp) = Some (JsBool false)
       /\ property "s3BucketName" (properties crp) = Some (jsOpt (s3BucketName props))
       /\ property "s3KeyPrefix" (properties crp) = Some (jsOpt (s3KeyPrefix props))
       /\ property "s3BucketKeyArn" (properties crp) = None.
Proof.
  intros Hs3 Hrun.
  apply constructor_Return in Hrun as [_ [_ Hdoc _ _ _ (tok & Hres) _ _]].
  split.
  - intros st a Hst Ha. rewrite Hdoc in Hst.
    unfold agentPolicyDocument, cloudWatchStatements in Hst. rewrite Hs3 in Hst.
    destruct (sendToCloudWatchLogs props); cbn [app] in Hst; statement_cases Hst;
      cbn in Ha; repeat (apply elem_of_cons in Ha as [->|Ha]; [reflexivity|]);
      inversion Ha.
  - do 2 eexists. split; [exact Hres|]. cbn. rewrite Hs3. repeat split; reflexivity.
Qed.

Lemma s3_disabled_pass_through_witness :
  exists crp deps,
    constructs Scenarios.unusedRun.1 !! loc (resource (Examples.returned Scenarios.unusedRun))
    = Some (["SessionManagerSettings"; "Resource"], CCustomResource crp deps)
    /\ property "s3BucketName" (properties crp) = Some (JsString "central-logs").
Proof.
  destruct (s3_disabled_pass_through Examples.env [] "SessionManagerSettings"
              Scenarios.bucketUnused Examples.stackWithKey Scenarios.unusedRun.1
              (Examples.returned Scenarios.unusedRun))
    as (_ & crp & deps & Hres & _ & Hname & _).
  - reflexivity.
  - vm_compute. reflexivity.
  - exists crp, deps. split; assumption.
Defined.

(** X13.  With the CloudWatch destination enabled, a run that returns has
    declared the session-manager log group with a retention of ten years,
    encrypted with the logs key declared by the same run (not with the
    session key), and the custom resource is handed the name of that log
    group, which is not the empty string. *)
Theorem cloudwatch_log_group_wiring env scope id props s s' l :
  sendToCloudWatchLogs props = true ->
  constructor env scope id props s = (s', Return l) ->
  exists lgp crp deps,
    In ((scope ++ [id]) ++ ["sessionManagerLogGroup"], CLogGroup lgp) (declaredBy s s')
    /\ logGroupName lgp = "aws-accelerator-session-manager-logs"
    /\ retention lgp = 3653%Z
    /\ constructs s' !! encryptionKey lgp
       = Some ((scope ++ [id]) ++ ["SessionManagerLogsCmk"],
               CKey logsCmkProps [rootStatement; logsAccessStatement env])
    /\ encryptionKey lgp <> loc (sessionManagerSessionCmk l)
    /\ constructs s' !! loc (resource l)
       = Some ((scope ++ [id]) ++ ["Resource"], CCustomResource crp deps)
    /\ property "cloudWatchLogGroupName" (properties crp)
       = Some (JsString (token ((scope ++ [id]) ++ ["sessionManagerLogGroup"]) "logGroupName"))
    /\ sessionManagerLogGroupName l <> "".
Proof.
  intros Hcw Hrun.
  destruct (constructor_wired _ _ _ _ _ _ _ Hrun) as [_ Hw].
  specialize (Hw l eq_refl). destruct Hw as [_ _ _ _ Hlogs _ _ _ _].
  destruct (Hlogs Hcw) as [Hkey Hlg].
  apply constructor_Return in Hrun as [[_ (ds & Hds & _ & _ & Hin)] Hdone].
  destruct Hdone as [_ _ Hname Hcmk _ (tok & Hres) _ _]. rewrite Hcw in Hname.
  do 3 eexists.
  split; [rewrite (declaredBy_eq _ _ _ Hds); exact (Hin Hcw)|].
  do 2 (split; [reflexivity|]).
  split; [exact Hkey|].
  split.
  { cbn [encryptionKey]. intros Heq. rewrite Heq, Hcmk in Hkey.
    injection Hkey as Hp _. apply app_inj_tail in Hp as [_ Hp]. discriminate Hp. }
  split; [exact Hres|].
  split; [cbn; rewrite Hname; reflexivity|].
  rewrite Hname. discriminate.
Qed.

Lemma cloudwatch_log_group_wiring_witness :
  exists lgp,
    In (["SessionManagerSettings"; "sessionManagerLogGroup"], CLogGroup lgp)
       (declaredBy Examples.stackWithKey Examples.firstRun.1)
    /\ constructs Examples.firstRun.1 !! encryptionKey lgp
       = Some (["SessionManagerSettings"; "SessionManagerLogsCmk"],
               CKey logsCmkProps [rootStatement; logsAccessStatement Examples.env]).
Proof.
  destruct (cloudwatch_log_group_wiring Examples.env [] "SessionManagerSettings"
              Examples.bothDestinations Examples.stackWithKey Examples.firstRun.1
              (Examples.returned Examples.firstRun))
    as (lgp & crp & deps & Hin & _ & _ & Hkey & _).
  - reflexivity.
  - vm_compute. reflexivity.
  - exists lgp. split; assumption.
Defined.

(** X14.  The handler's log group is configured by the first instantiation:
    when the stack has no child under its id, the first run declares it with
    its own retention and key, to be destroyed on removal and named after the
    handler; a second run finds it and leaves it so, whatever retention and
    key the second run was given. *)
Theorem handler_log_group_first_configuration
    env scope1 id1 props1 scope2 id2 props2 s s1 s2 l1 l2 :
  findIn (constructs s) [] handlerLogGroupId = None ->
  scope1 ++ [id1] <> [handlerLogGroupId] ->
  constructor env scope1 id1 props1 s = (s1, Return l1) ->
  constructor env scope2 id2 props2 s1 = (s2, Return l2) ->
  constructs s1 !! loc (logGroup l1)
  = Some ([handlerLogGroupId],
          CLogGroup {| logGroupName := "/aws/lambda/" +:+ token [providerId; "Handler"] "Ref";
                       retention := logRetentionInDays props1;
                       encryptionKey := loc (kmsKey props1);
                       lgRemovalPolicy := Some DESTROY |})
  /\ constructs s2 !! loc (logGroup l2) = constructs s1 !! loc (logGroup l1)
  /\ length (constructs s) <= loc (logGroup l1).
Proof.
  intros Hnone Hid Hrun1 Hrun2.
  destruct (constructor_wired _ _ _ _ _ _ _ Hrun1) as [[_ (ds1 & Hds1)] Hw].
  specialize (Hw l1 eq_refl). destruct Hw as [_ _ _ _ _ Hlg _ _ _].
  specialize (Hlg Hnone Hid).
  apply constructor_Return in Hrun1 as [_ Hdone1].
  apply constructor_Return in Hrun2 as [[_ (ds2 & Hds2 & _)] Hdone2].
  pose proof (done_logGroup _ _ _ _ _ _ _ Hdone1) as Hfind1.
  destruct (done_found _ _ _ _ _ _ _ Hdone2 _ Hfind1) as [Hsame _].
  split; [exact Hlg|]. split.
  - rewrite Hsame, Hds2. apply lookup_app_l. eapply lookup_lt_Some, Hlg.
  - destruct (decide (length (constructs s) <= loc (logGroup l1))) as [Hle|Hlt]; [exact Hle|].
    exfalso. rewrite Hds1, lookup_app_l in Hlg by lia.
    apply findIn_None in Hnone. rewrite Forall_lookup in Hnone.
    apply (Hnone _ _ Hlg). reflexivity.
Qed.

Lemma handler_log_group_first_configuration_witness :
  exists lgp,
    constructs Examples.secondRun.1 !! loc (logGroup (Examples.returned Examples.secondRun))
    = Some ([handlerLogGroupId], CLogGroup lgp)
    /\ retention lgp = logRetentionInDays Examples.bothDestinations.
Proof.
  destruct (handler_log_group_first_configuration Examples.env
              [] "SessionManagerSettings" Examples.bothDestinations
              [] "SecondSessionManagerSettings" Examples.noDestination
              Examples.stackWithKey Examples.firstRun.1 Examples.secondRun.1
              (Examples.returned Examples.firstRun) (Examples.returned Examples.secondRun))
    as (Hlg & Hsame & _).
  - vm_compute. reflexivity.
  - discriminate.
  - vm_compute. reflexivity.
  - vm_compute. reflexivity.
  - eexists. split; [rewrite Hsame; exact Hlg | reflexivity].
Defined.

(** X15.  With the S3 destination enabled, a bucket name and a key ARN
    given, the document of the agent policy that the run declares holds the
    three statements of the S3 block, one after the other: the object-write
    statement, the read of the encryption configuration, scoped to the bucket
    itself, [arn:<partition>:s3:::<bucket>], and the use of the bucket's key,
    to decrypt and to generate data keys, scoped to exactly the key ARN
    given.  They are the only statements of the document that allow an S3
    action, and the key statement is the only one that allows generating
    data keys. *)
Theorem s3_block_scope env scope id props s s' o bucket bucketKeyArn :
  constructor env scope id props s = (s', o) ->
  sendToS3 props = true ->
  s3BucketName props = Some bucket -> bucket <> "" ->
  s3BucketKeyArn props = Some bucketKeyArn -> bucketKeyArn <> "" ->
  exists doc before put after,
    In ((scope ++ [id]) ++ ["SessionManagerEC2Policy"],
        CManagedPolicy doc ("SessionManagerLogging-" +:+ region env))
       (declaredBy s s')
    /\ doc
       = before
         ++ [put;
             {| sid := None;
                effect := ALLOW;
                principals := [];
                actions := ["s3:GetEncryptionConfiguration"];
                resources := ["arn:" +:+ partition env +:+ ":s3:::" +:+ bucket];
                conditions := [] |};
             {| sid := None;
                effect := ALLOW;
                principals := [];
                actions := ["kms:Decrypt"; "kms:GenerateDataKey"];
                resources := [bucketKeyArn];
                conditions := [] |}]
         ++ after
    /\ actions put = ["s3:PutObject"; "s3:PutObjectAcl"]
    /\ (forall st a, st ∈ before ++ after -> a ∈ actions st ->
          String.prefix "s3:" a = false /\ a <> "kms:GenerateDataKey")
    /\ length after = 1.
Proof.
  intros Hrun Hs3 Hbucket Hb Hkey Hk.
  assert (Hvalid : sendToS3 props = true ->
                   truthy (s3BucketKeyArn props) = true /\ truthy (s3BucketName props) = true).
  { intros _. rewrite Hbucket, Hkey. cbn.
    rewrite !bool_decide_eq_false_2 by assumption. split; reflexivity. }
  destruct (constructor_assembled _ _ _ _ _ _ _ Hrun Hvalid)
    as [_ (ds & Hds & _ & Hpol & _)].
  rewrite (declaredBy_eq _ _ _ Hds).
  exists (agentPolicyDocument env scope id props),
    ([baseStatement]
     ++ (if sendToCloudWatchLogs props
         then cloudWatchStatements env sessionLogGroupName else [])),
    (putObjectStatement env props),
    [sessionKeyStatement (keyArn (sessionCmkPath scope id))].
  split; [exact Hpol|].
  split.
  { unfold agentPolicyDocument, s3Statements, encryptionConfigurationStatement,
      bucketKeyStatement.
    rewrite Hs3, Hbucket, Hkey, <- !(assoc_L (++)). reflexivity. }
  split; [reflexivity|]. split; [|reflexivity].
  intros st a Hst Ha. unfold cloudWatchStatements in Hst.
  destruct (sendToCloudWatchLogs props); cbn [app] in Hst; statement_cases Hst;
    cbn in Ha; repeat (apply elem_of_cons in Ha as [->|Ha]; [split; [reflexivity | discriminate]|]);
    inversion Ha.
Qed.

Lemma s3_block_scope_witness :
  exists doc before put after,
    In (["SessionManagerSettings"; "SessionManagerEC2Policy"],
        CManagedPolicy doc "SessionManagerLogging-cn-north-1")
       (declaredBy Examples.stackWithKey Examples.firstRun.1)
    /\ doc
       = before
         ++ [put;
             {| sid := None;
                effect := ALLOW;
                principals := [];
                actions := ["s3:GetEncryptionConfiguration"];
                resources := ["arn:aws-cn:s3:::central-logs"];
                conditions := [] |};
             {| sid := None;
                effect := ALLOW;
                principals := [];
                actions := ["kms:Decrypt"; "kms:GenerateDataKey"];
                resources := ["arn:aws-cn:kms:cn-north-1:111122223333:key/1234"];
                conditions := [] |}]
         ++ after.
Proof.
  destruct (s3_block_scope Examples.env [] "SessionManagerSettings"
              Examples.bothDestinations Examples.stackWithKey
              Examples.firstRun.1 Examples.firstRun.2
              "central-logs" "arn:aws-cn:kms:cn-north-1:111122223333:key/1234")
    as (doc & before & put & after & Hin & Hdoc & _).
  - vm_compute. reflexivity.
  - reflexivity.
  - reflexivity.
  - discriminate.
  - reflexivity.
  - discriminate.
  - exists doc, before, put, after. split; [exact Hin | exact Hdoc].
Defined.
End SettingsMore.
